(** * The forecaster of the financial dashboard (src/prediction_model.py)

    A shallow embedding of [prepare_data], [train_model], [make_predictions]
    and [predict_future_transactions], with the object store the Python code
    mutates made explicit, followed by the properties of the forecaster.

    Conventions of the embedding.
    - A pandas [Timestamp] of the [date] column is a calendar date, held as
      its day ordinal (a [Z]); a [Timedelta] in days is a difference of two
      ordinals.
    - Amounts, fitted coefficients and predictions are exact rationals ([Q]):
      the arithmetic of the least-squares fit is the mathematical one.  The
      projection of [make_predictions] is given a second time in binary64
      (module [binary64]), with the rounding of each operation, for the
      properties that depend on it.
    - A data frame is a Python object: functions receive a reference into a
      heap of frames, and assignments to a column update the frame stored at
      that reference. *)

From stdpp Require Import base option list gmap.
From stdpp Require Import sorting.
From Stdlib Require Import ZArith QArith Qabs Qround Qfield Lqa String.
From Stdlib Require Import SpecFloat Qpower.

Set Default Proof Using "Type".
Close Scope Q_scope.

(** ** Data model *)

(** One row of the transaction table read by [load_data] in src/main.py:
    columns [date], [Category], [Transaction Amount], and the derived column
    [days_since_start], which is absent ([None]) until [prepare_data] has
    run. *)
Record Transaction := mkTransaction {
  date : Z;
  Category : string;
  Transaction_Amount : Q;
  days_since_start : option Z
}.

Abbreviation DataFrame := (list Transaction).

(** One row of the frame [future_df] built by [make_predictions]. *)
Record Forecast := mkForecast {
  future_date : Z;
  future_days_since_start : Z;
  prediction : Q
}.

(** The numeric columns of a transaction frame that can be selected by name. *)
Inductive column := Col_Transaction_Amount | Col_days_since_start.

(** Python exceptions, identified by the name of their class. *)
Record exception := Exception { exc_type : string }.

Definition ValueError : exception := Exception "ValueError".
Definition KeyError : exception := Exception "KeyError".
Definition IndexError : exception := Exception "IndexError".
Definition ReferenceError : exception := Exception "ReferenceError".

Inductive outcome (A : Type) : Type :=
  | Returns (a : A)
  | Raises (e : exception).
Arguments Returns {A} a.
Arguments Raises {A} e.

(** ** The object store *)

Abbreviation loc := positive.
Abbreviation heap := (gmap positive (list Transaction)).

(** A computation reads and updates the heap and returns or raises; the heap
    it leaves is kept in both cases, since an exception does not undo the
    assignments made before it. *)
Definition M (A : Type) : Type := heap → outcome A * heap.

#[export] Instance M_ret : MRet M := λ A a σ, (Returns a, σ).
#[export] Instance M_bind : MBind M := λ A B f m σ,
  match m σ with
  | (Returns a, σ') => f a σ'
  | (Raises e, σ') => (Raises e, σ')
  end.

Definition raise {A} (e : exception) : M A := λ σ, (Raises e, σ).

Definition lift {A} (o : outcome A) : M A := λ σ, (o, σ).

Definition load (l : loc) : M DataFrame := λ σ,
  match σ !! l with
  | Some df => (Returns df, σ)
  | None => (Raises ReferenceError, σ)
  end.

Definition store (l : loc) (df : DataFrame) : M unit := λ σ,
  (Returns tt, <[l := df]> σ).

(** A new frame object ([df[mask]], [.copy()]) gets a location that no
    existing object has. *)
Definition alloc (df : DataFrame) : M loc := λ σ,
  let l := fresh (dom σ) in (Returns l, <[l := df]> σ).

(** ** pandas: series and frames *)

(** [Series.min()] and [Series.max()] of a date column; [None] is [NaT], the
    result on an empty column. *)
Definition Series_min (s : list Z) : option Z :=
  match s with
  | [] => None
  | x :: xs => Some (foldr Z.min x xs)
  end.

Definition Series_max (s : list Z) : option Z :=
  match s with
  | [] => None
  | x :: xs => Some (foldr Z.max x xs)
  end.

Definition set_days_since_start (d : option Z) (r : Transaction) : Transaction :=
  mkTransaction (date r) (Category r) (Transaction_Amount r) d.

Definition set_Transaction_Amount (a : Q) (r : Transaction) : Transaction :=
  mkTransaction (date r) (Category r) a (days_since_start r).

(** [df[col]] for a numeric column, as the array of numbers scikit-learn
    receives.  Selecting [days_since_start] from a frame that does not have
    the column raises [KeyError]. *)
Fixpoint getitem_days_since_start (df : DataFrame) : outcome (list Q) :=
  match df with
  | [] => Returns []
  | r :: df' =>
      match days_since_start r, getitem_days_since_start df' with
      | Some d, Returns ds => Returns (inject_Z d :: ds)
      | Some _, Raises e => Raises e
      | None, _ => Raises KeyError
      end
  end.

Definition getitem (df : DataFrame) (col : column) : outcome (list Q) :=
  match col with
  | Col_Transaction_Amount => Returns (Transaction_Amount <$> df)
  | Col_days_since_start => getitem_days_since_start df
  end.

(** The comparisons [amount > 0] and [amount < 0] of the boolean masks are
    decided on the cross products of numerators and denominators. *)
#[export] Instance Qlt_decision (x y : Q) : Decision (x < y)%Q := Z.lt_dec _ _.

(** [pd.date_range(start=start, periods=periods)], daily frequency. *)
Definition date_range (start : Z) (periods : nat) : list Z :=
  (λ i, (start + Z.of_nat i)%Z) <$> seq 0 periods.

(** ** numpy and scikit-learn *)

(** [numpy.random.RandomState(seed).permutation(n)]: the generator is not
    part of this repository; what is used of it is that, for a given seed, it
    returns one fixed permutation of [0 .. n-1]. *)
Class RandomState := {
  permutation : Z → nat → list nat;
  permutation_Permutation : ∀ seed n, permutation seed n ≡ₚ seq 0 n
}.

(** Positional selection of rows; an index past the end raises. *)
Fixpoint _safe_indexing {A} (X : list A) (indices : list nat) : outcome (list A) :=
  match indices with
  | [] => Returns []
  | i :: indices' =>
      match X !! i, _safe_indexing X indices' with
      | Some x, Returns xs => Returns (x :: xs)
      | Some _, Raises e => Raises e
      | None, _ => Raises IndexError
      end
  end.

(** [train_test_split(X, y, test_size=test_size, random_state=random_state)]:
    [n_test = ceil(test_size * n_samples)], [n_train = n_samples - n_test];
    an empty training set is refused with [ValueError]; otherwise the first
    [n_test] entries of the seeded permutation index the test rows and the
    next [n_train] the training rows. *)
Definition train_test_split `{RandomState} {A B} (X : list A) (y : list B)
    (test_size : Q) (random_state : Z)
  : outcome (list A * list A * list B * list B) :=
  let n_samples := List.length X in
  let n_test := Z.to_nat (Qceiling (test_size * inject_Z (Z.of_nat n_samples))) in
  let n_train := n_samples - n_test in
  if decide (n_train = 0) then Raises ValueError
  else
    let p := permutation random_state n_samples in
    let ind_test := take n_test p in
    let ind_train := take n_train (drop n_test p) in
    match _safe_indexing X ind_train, _safe_indexing X ind_test,
          _safe_indexing y ind_train, _safe_indexing y ind_test with
    | Returns X_train, Returns X_test, Returns y_train, Returns y_test =>
        Returns (X_train, X_test, y_train, y_test)
    | Raises e, _, _, _ => Raises e
    | _, Raises e, _, _ => Raises e
    | _, _, Raises e, _ => Raises e
    | _, _, _, Raises e => Raises e
    end.

Definition np_sum (l : list Q) : Q := foldr Qplus 0%Q l.

Definition np_mean (l : list Q) : Q :=
  (np_sum l / inject_Z (Z.of_nat (List.length l)))%Q.

(** A fitted [LinearRegression] with one feature. *)
Record LinearRegression := mkLinearRegression {
  coef_ : Q;
  intercept_ : Q
}.

(** [LinearRegression().fit(X, y)] with one feature and an intercept: the
    data are centred on their means, the slope is the least-squares solution
    on the centred data (the minimum-norm one, 0, when the feature has no
    spread), and the intercept puts the line through the point of means.
    No sample at all is refused with [ValueError]. *)
Definition LinearRegression_fit (X y : list Q) : outcome LinearRegression :=
  match X with
  | [] => Raises ValueError
  | _ =>
      let X_offset := np_mean X in
      let y_offset := np_mean y in
      let Xc := (λ x, x - X_offset)%Q <$> X in
      let yc := (λ v, v - y_offset)%Q <$> y in
      let Sxx := np_sum (zip_with Qmult Xc Xc) in
      let Sxy := np_sum (zip_with Qmult Xc yc) in
      let coef := if Qeq_bool Sxx 0 then 0%Q else (Sxy / Sxx)%Q in
      Returns (mkLinearRegression coef (y_offset - X_offset * coef)%Q)
  end.

(** [model.predict(X)]. *)
Definition LinearRegression_predict (model : LinearRegression) (X : list Q) : list Q :=
  (λ x, x * coef_ model + intercept_ model)%Q <$> X.

(** ** src/prediction_model.py *)

Section prediction_model.
Context `{RandomState}.

(** [prepare_data(df)]: both assignments write into the frame the caller
    passed, and that same frame is returned.  The dates are already parsed,
    so [pd.to_datetime] leaves the column as it is. *)
Definition prepare_data (df : loc) : M loc :=
  rows ← load df;
  store df rows;;
  rows ← load df;
  let start := Series_min (date <$> rows) in
  store df ((λ r, set_days_since_start ((λ m, date r - m)%Z <$> start) r) <$> rows);;
  mret df.

(** [train_model(df, target)]. *)
Definition train_model (df : loc) (target : column) : M LinearRegression :=
  rows ← load df;
  X ← lift (getitem rows Col_days_since_start);
  y ← lift (getitem rows target);
  '(X_train, X_test, y_train, y_test) ← lift (train_test_split X y 0.2%Q 42%Z);
  model ← lift (LinearRegression_fit X_train y_train);
  mret model.

(** [make_predictions(model, df, days_to_predict=30)].  [pd.date_range]
    refuses a [NaT] start, which is what an empty [df] gives. *)
Definition make_predictions (model : LinearRegression) (df : loc)
    (days_to_predict : nat) : M (list Forecast) :=
  rows ← load df;
  match Series_max (date <$> rows), Series_min (date <$> rows) with
  | Some last_date, Some first_date =>
      let future_dates := date_range (last_date + 1)%Z days_to_predict in
      let days := (λ d, d - first_date)%Z <$> future_dates in
      let predictions := LinearRegression_predict model (inject_Z <$> days) in
      mret (zip_with (λ '(d, n) p, mkForecast d n p) (zip future_dates days) predictions)
  | _, _ => raise ValueError
  end.

(** Lines 32 to 34 of [predict_future_transactions]: the two boolean-mask
    selections build new frames; the expenditure one is a copy whose amount
    column is then overwritten by its absolute value. *)
Definition income_expenditure_frames (df : loc) : M (loc * loc) :=
  rows ← load df;
  income_df ← alloc (filter (λ r, (0 < Transaction_Amount r)%Q) rows);
  expenditure_df ← alloc (filter (λ r, (Transaction_Amount r < 0)%Q) rows);
  rows_e ← load expenditure_df;
  store expenditure_df
    ((λ r, set_Transaction_Amount (Qabs (Transaction_Amount r)) r) <$> rows_e);;
  mret (income_df, expenditure_df).

(** [predict_future_transactions(df)]. *)
Definition predict_future_transactions (df : loc)
  : M (list Forecast * list Forecast) :=
  df ← prepare_data df;
  '(income_df, expenditure_df) ← income_expenditure_frames df;
  income_model ← train_model income_df Col_Transaction_Amount;
  expenditure_model ← train_model expenditure_df Col_Transaction_Amount;
  future_income ← make_predictions income_model income_df 30;
  future_expenditure ← make_predictions expenditure_model expenditure_df 30;
  mret (future_income, future_expenditure).

End prediction_model.

(** ** The projection in binary64

    [model.predict] computes in binary64: it converts each day index to a
    double, multiplies it by the coefficient and adds the intercept, every
    operation rounding to nearest, ties to even.  The operations are those of
    the Standard Library's specification of IEEE 754 ([SpecFloat]), at
    precision 53 and maximal exponent 1024.  The least-squares solver of the
    library is not given in binary64: the model is whatever [train_model] has
    fitted. *)

Abbreviation float64 := spec_float.

Definition float64_mul : float64 → float64 → float64 := SFmul 53 1024.

Definition float64_add : float64 → float64 → float64 := SFadd 53 1024.

(** An [int64] converted to [float64]. *)
Definition float64_of_int (n : Z) : float64 := binary_normalize 53 1024 n 0 false.

Module binary64.

(** A fitted [LinearRegression] with one feature. *)
Record LinearRegression := mkLinearRegression {
  coef_ : float64;
  intercept_ : float64
}.

(** [model.predict(X)] on a column of integer day indices: [X @ coef_ +
    intercept_]. *)
Definition LinearRegression_predict (model : LinearRegression) (X : list Z)
  : list float64 :=
  (λ x, float64_add (float64_mul (float64_of_int x) (coef_ model)) (intercept_ model))
    <$> X.

(** One row of the frame that [make_predictions] returns. *)
Record Forecast := mkForecast {
  future_date : Z;
  future_days_since_start : Z;
  prediction : float64
}.

(** [make_predictions(model, df, days_to_predict=30)]. *)
Definition make_predictions (model : LinearRegression) (df : loc)
    (days_to_predict : nat) : M (list Forecast) :=
  rows ← load df;
  match Series_max (date <$> rows), Series_min (date <$> rows) with
  | Some last_date, Some first_date =>
      let future_dates := date_range (last_date + 1)%Z days_to_predict in
      let days := (λ d, d - first_date)%Z <$> future_dates in
      let predictions := LinearRegression_predict model days in
      mret (zip_with (λ '(d, n) p, mkForecast d n p) (zip future_dates days) predictions)
  | _, _ => raise ValueError
  end.

End binary64.

(** ** src/main.py

    The statements of the dashboard script that compute on the transaction
    frame.  Rendering calls ([st.metric], [st.altair_chart], ...) only display
    the values computed here. *)

#[export] Instance string_eq_decision : EqDecision string := String.string_dec.

(** [Series.unique().tolist()]: the distinct values, each at the place of its
    first occurrence. *)
Fixpoint unique (l : list string) : list string :=
  match l with
  | [] => []
  | x :: l' => x :: filter (λ y, y ≠ x) (unique l')
  end.

(** The order of Python strings: by code points, which is the byte order of
    their encoding. *)
Definition string_le (a b : string) : Prop := String.leb a b = true.

#[export] Instance string_le_decision (a b : string) : Decision (string_le a b) :=
  bool_eq_dec _ _.

(** [sorted(...)] on a list of strings: the ascending arrangement. *)
Definition sorted (l : list string) : list string := merge_sort string_le l.

(** Line 25: [categories = ['All'] + sorted(df['Category'].unique().tolist())]. *)
Definition category_options (rows : DataFrame) : list string :=
  "All"%string :: sorted (unique (Category <$> rows)).


Section daily_data.

(** The sum of a group of [groupby(...).sum()] on the float64 column of the
    amounts.  Its additions are rounded, in an order and with a compensation
    that are the library's: the sum is a parameter here, and so is the type
    of its results. *)
Context {float : Type}.
Variable group_sum : list Q → float.


End daily_data.


Section main.
Context `{RandomState}.

(** Monthly periods: [Series.dt.to_period('M')] gives the period of a date
    and [pd.Period(label)] reads the period back from the label of a month
    option.  The calendar is not part of this repository. *)
Context {period : Type} `{EqDecision period}.
Variable to_period_M : Z → period.
Variable Period : string → period.



End main.

(** * The results as functions of the frame

    Each function of the module is related below to a function of the
    frame it reads: what it returns or raises, and the heap it leaves. *)

#[export] Instance outcome_ret : MRet outcome := λ A a, Returns a.
#[export] Instance outcome_bind : MBind outcome := λ A B f o,
  match o with
  | Returns a => f a
  | Raises e => Raises e
  end.

(** A row with its day index counted from [start]. *)
Definition stamp (start : option Z) (r : Transaction) : Transaction :=
  set_days_since_start ((λ m, date r - m)%Z <$> start) r.

(** The frame [prepare_data] leaves at the reference it was given. *)
Definition prepared (df : DataFrame) : DataFrame :=
  stamp (Series_min (date <$> df)) <$> df.

(** A row with the sign of its amount dropped. *)
Definition absolute (r : Transaction) : Transaction :=
  set_Transaction_Amount (Qabs (Transaction_Amount r)) r.

(** The rows with a positive amount: the frame [income_df]. *)
Definition income_of (rows : DataFrame) : DataFrame :=
  filter (λ r, (0 < Transaction_Amount r)%Q) rows.

(** The rows with a negative amount, before the sign is dropped. *)
Definition expenses_of (rows : DataFrame) : DataFrame :=
  filter (λ r, (Transaction_Amount r < 0)%Q) rows.

(** The frame [expenditure_df] after line 34. *)
Definition expenditure_of (rows : DataFrame) : DataFrame :=
  absolute <$> expenses_of rows.

Section results.
Context `{RandomState}.

(** The result of [train_model] on a frame holding [rows]. *)
Definition fitted (rows : DataFrame) (target : column) : outcome LinearRegression :=
  X ← getitem rows Col_days_since_start;
  y ← getitem rows target;
  '(X_train, X_test, y_train, y_test) ← train_test_split X y 0.2%Q 42%Z;
  LinearRegression_fit X_train y_train.

(** The result of [make_predictions] on a frame holding [rows]. *)
Definition projected (model : LinearRegression) (rows : DataFrame)
    (days_to_predict : nat) : outcome (list Forecast) :=
  match Series_max (date <$> rows), Series_min (date <$> rows) with
  | Some last_date, Some first_date =>
      let future_dates := date_range (last_date + 1)%Z days_to_predict in
      let days := (λ d, d - first_date)%Z <$> future_dates in
      let predictions := LinearRegression_predict model (inject_Z <$> days) in
      Returns (zip_with (λ '(d, n) p, mkForecast d n p) (zip future_dates days) predictions)
  | _, _ => Raises ValueError
  end.

(** The result of [predict_future_transactions] on a frame holding [df]. *)
Definition forecast (df : DataFrame) : outcome (list Forecast * list Forecast) :=
  let income := income_of (prepared df) in
  let expenditure := expenditure_of (prepared df) in
  income_model ← fitted income Col_Transaction_Amount;
  expenditure_model ← fitted expenditure Col_Transaction_Amount;
  future_income ← projected income_model income 30;
  future_expenditure ← projected expenditure_model expenditure 30;
  Returns (future_income, future_expenditure).

End results.

(** ** Notions used in the statements *)

(** The rows of [future_df], one per projected date. *)
Definition future_row (model : LinearRegression) (first_date start : Z) (i : nat) : Forecast :=
  mkForecast (start + Z.of_nat i) (start + Z.of_nat i - first_date)
    (inject_Z (start + Z.of_nat i - first_date) * coef_ model + intercept_ model)%Q.

(** [m] is the earliest date of the column [s]. *)
Definition earliest (m : Z) (s : list Z) : Prop := m ∈ s ∧ ∀ d, d ∈ s → (m ≤ d)%Z.

(** [m] is the latest date of the column [s]. *)
Definition latest (m : Z) (s : list Z) : Prop := m ∈ s ∧ ∀ d, d ∈ s → (d ≤ m)%Z.

(** An input the forecaster accepts: at least two income records and at
    least two expenditure records. *)
Definition accepted (df : DataFrame) : Prop :=
  2 ≤ List.length (income_of df) ∧ 2 ≤ List.length (expenses_of df).

(** Dates that follow one another by exactly one day. *)
Definition consecutive (s : list Z) : Prop :=
  ∀ i d d', s !! i = Some d → s !! S i = Some d' → d' = (d + 1)%Z.


(** The outcome the error taxonomy asks for when a subseries is too small. *)
Definition raises_InsufficientDataError {A} (o : outcome A) : Prop :=
  ∃ e, o = Raises e ∧ exc_type e = "InsufficientDataError"%string.

#[export] Instance Qeq_decision (x y : Q) : Decision (x == y)%Q := Z.eq_dec _ _.



(** [df2] is [df1] moved by [k] days: row by row the same amount, and a date
    [k] days later.  Categories and day-index columns are not compared. *)
Definition shifted (k : Z) (df1 df2 : DataFrame) : Prop :=
  Forall2 (λ r1 r2, date r2 = (date r1 + k)%Z
                    ∧ Transaction_Amount r2 = Transaction_Amount r1) df1 df2.

(** Two rows that agree, up to [k] days, on all that the forecaster reads
    after [prepare_data]. *)
Definition same_data (k : Z) (r1 r2 : Transaction) : Prop :=
  date r2 = (date r1 + k)%Z
  ∧ Transaction_Amount r2 = Transaction_Amount r1
  ∧ days_since_start r2 = days_since_start r1.

(** The day index a row carries, 0 when it carries none. *)
Definition day_index (r : Transaction) : Z := default 0%Z (days_since_start r).

(** A forecast point moved by [k] days: its day index and amount are kept. *)
Definition shift_forecast (k : Z) (f : Forecast) : Forecast :=
  mkForecast (future_date f + k) (future_days_since_start f) (prediction f).

(** A result of the forecaster with both sequences moved by [k] days. *)
Definition shift_result (k : Z) (o : outcome (list Forecast * list Forecast))
  : outcome (list Forecast * list Forecast) :=
  match o with
  | Returns (future_income, future_expenditure) =>
      Returns (shift_forecast k <$> future_income,
               shift_forecast k <$> future_expenditure)
  | Raises e => Raises e
  end.

(** Two to the power [e]. *)
Definition bpow (e : Z) : Q := (2 ^ e)%Q.

(** The number a finite double stands for; 0 for the others. *)
Definition float64_value (x : float64) : Q :=
  match x with
  | S754_finite s m e => (inject_Z (cond_Zopp s (Z.pos m)) * bpow e)%Q
  | _ => 0%Q
  end.

(** A zero or a finite double: not an infinity, not a NaN. *)
Definition float64_finite (x : float64) : Prop :=
  match x with
  | S754_zero _ | S754_finite _ _ _ => True
  | _ => False
  end.

(** A mantissa shifted right with its round bit and its sticky bit stands
    for a non-negative number [x]: [shr_m] is the integer part of [x], the
    round bit tells whether the rest reaches a half, the sticky bit whether
    anything is left beyond that. *)
Definition represents (mrs : shr_record) (x : Q) : Prop :=
  (0 ≤ shr_m mrs)%Z ∧
  match shr_r mrs, shr_s mrs with
  | false, false => (x == inject_Z (shr_m mrs))%Q
  | false, true => (inject_Z (shr_m mrs) < x ∧ x < inject_Z (shr_m mrs) + (1 # 2))%Q
  | true, false => (x == inject_Z (shr_m mrs) + (1 # 2))%Q
  | true, true => (inject_Z (shr_m mrs) + (1 # 2) < x ∧ x < inject_Z (shr_m mrs) + 1)%Q
  end.

(** [r] is a rounding of the exact value [v]: within half a unit in the last
    place, which is at most [2^-53 * |v|] where [v] is in the normal range
    and [2^-1075] below it. *)
Definition within_rounding (r v : Q) : Prop :=
  (Qabs (r - v) <= bpow (-53) * Qabs v + bpow (-1075))%Q
  ∧ ((bpow (-1022) <= Qabs v)%Q → (Qabs (r - v) <= bpow (-53) * Qabs v)%Q).

(** The exact value of the fitted line at the day index [x]. *)
Definition line_value (model : binary64.LinearRegression) (x : Z) : Q :=
  (inject_Z x * float64_value (binary64.coef_ model)
   + float64_value (binary64.intercept_ model))%Q.

(** What the three roundings of [model.predict] at the day index [x] can
    add up to: [2^-51] of the sizes of the two terms of the line, and
    [2^-1073] for a product in the subnormal range. *)
Definition rounding_allowance (model : binary64.LinearRegression) (x : Z) : Q :=
  (bpow (-51) * (Qabs (inject_Z x * float64_value (binary64.coef_ model))
                 + Qabs (float64_value (binary64.intercept_ model)))
   + bpow (-1073))%Q.

(** The line at the day index [x] is far from overflow: its coefficients are
    finite doubles, [x] fits an [int64], and its two terms stay below
    [2^970] in size. *)
Definition far_from_overflow (model : binary64.LinearRegression) (x : Z) : Prop :=
  float64_finite (binary64.coef_ model) ∧ float64_finite (binary64.intercept_ model)
  ∧ (Z.abs x < 2 ^ 63)%Z
  ∧ (Qabs (inject_Z x * float64_value (binary64.coef_ model))
     + Qabs (float64_value (binary64.intercept_ model)) < bpow 970)%Q.

(** The rows of [future_df] in binary64, one per projected date. *)
Definition projected_row (model : binary64.LinearRegression) (first_date start : Z)
    (i : nat) : binary64.Forecast :=
  binary64.mkForecast (start + Z.of_nat i) (start + Z.of_nat i - first_date)
    (float64_add
       (float64_mul (float64_of_int (start + Z.of_nat i - first_date))
          (binary64.coef_ model))
       (binary64.intercept_ model)).

(** ** Concrete inputs *)

(** A generator that leaves the rows in their order, to run the model on
    concrete frames. *)
Definition in_order : RandomState :=
  Build_RandomState (λ _ n, seq 0 n) (λ _ n, Permutation_refl (seq 0 n)).

(** A record of the input file, before [prepare_data]. *)
Definition record (d : Z) (a : Q) : Transaction := mkTransaction d "General" a None.

(** Income on days 0 and 1, expenditure on days 2 and 3. *)
Definition ledger_C1 : DataFrame :=
  [record 0 50; record 1 70; record 2 (-30); record 3 (-20)].

(** Expenditure on days 0 and 1, income on days 2 and 3. *)
Definition ledger_C2 : DataFrame :=
  [record 0 (-30); record 1 (-20); record 2 50; record 3 70].

(** One income record (day 2) and three expenditure records. *)
Definition ledger_C3 : DataFrame :=
  [record 0 (-30); record 1 (-20); record 2 50; record 3 (-25)].

(** A frame as [load_data] returns it, without a [days_since_start] column. *)
Definition ledger_C4 : DataFrame :=
  [record 0 100; record 1 (-40); record 2 100; record 3 (-40)].

(** Alternating income and expenditure on four consecutive days. *)
Definition ledger_C5 : DataFrame :=
  [record 0 100; record 1 (-40); record 2 100; record 3 (-40)].

(** The ledger of the partitioning scenario, with one record of amount 0. *)
Definition ledger_C6 : DataFrame :=
  [record 0 50; record 1 (-30); record 2 70; record 3 0].

(** Expenditure from day 10 on, income from day 12 on. *)
Definition ledger_C7 : DataFrame :=
  [record 10 (-30); record 12 50; record 13 (-20); record 15 70].


(** Two frames for two runs; the second heap also holds [other_C9]. *)
Definition ledger_C9 : DataFrame :=
  [record 0 100; record 1 (-40); record 2 120; record 3 (-45); record 4 130;
   record 5 (-50)].

Definition other_C9 : DataFrame := [record 7 5; record 9 (-5)].

(** Growing income and expenditure on six consecutive days. *)
Definition ledger_C10 : DataFrame :=
  [record 0 100; record 1 (-40); record 2 120; record 3 (-45); record 4 130;
   record 5 (-50)].

(** Frames for the further properties: the two subseries end on different
    days; a frame as it is read from the file; a frame without expenditure. *)
Definition ledger_anchors : DataFrame :=
  [record 0 50; record 1 70; record 2 (-30); record 3 (-20)].

Definition ledger_unprepared : DataFrame :=
  [record 0 100; record 1 (-40); record 2 100; record 3 (-40)].

Definition ledger_income_only : DataFrame :=
  [record 100 10; record 101 12; record 102 14; record 103 16; record 104 18].





(** Frames for the properties of the fit. *)
Definition ledger_moved_from : DataFrame :=
  [record 0 100; record 1 (-40); record 2 120; record 3 (-45); record 4 130;
   record 5 (-50)].

Definition ledger_moved_to : DataFrame :=
  [mkTransaction 365 "Salary" 100 (Some 7%Z); mkTransaction 366 "Rent" (-40) None;
   mkTransaction 367 "Salary" 120 None; mkTransaction 368 "Food" (-45) None;
   mkTransaction 369 "Salary" 130 None; mkTransaction 370 "Food" (-50) None].

Definition ledger_relabelled : DataFrame :=
  [mkTransaction 0 "Salary" 100 (Some 7%Z); mkTransaction 1 "Rent" (-40) None;
   mkTransaction 2 "Salary" 120 None; mkTransaction 3 "Food" (-45) None;
   mkTransaction 4 "Salary" 130 None; mkTransaction 5 "Food" (-50) None].

(** Two frames that differ in their first row only, the one the in-order
    split holds out. *)
Definition ledger_held_out_1 : DataFrame :=
  [record 0 999; record 1 12; record 2 14; record 3 16; record 4 18].

Definition ledger_held_out_2 : DataFrame :=
  [record 0 1; record 1 12; record 2 14; record 3 16; record 4 18].

(** Income records that, but for the first, fall on one day. *)
Definition ledger_same_day : DataFrame :=
  [record 0 10; record 3 20; record 3 30; record 3 40].

(** Two income records on different days, among three expenditure records. *)
Definition ledger_two_incomes : DataFrame :=
  [record 0 (-30); record 1 80; record 2 (-20); record 5 95; record 6 (-25)].

(** A frame as it is read from the file, before [prepare_data]. *)
Definition ledger_no_day_column : DataFrame :=
  [record 0 100; record 1 110; record 2 120].

(** Several records on one day. *)
Definition ledger_daily : DataFrame :=
  [record 2 50; record 0 (-30); record 2 70; record 0 10; record 1 (-15)].

(** A fitted model in binary64 for the income rows of [ledger_C10]: the
    line through the records of days 2 and 4 has the slope 5 and the
    intercept 110; a least-squares solver in binary64 can miss the slope by
    two units in the last place.  The slope here is the double
    4.999999999999998 and the intercept the double 110.0. *)
Definition model_C10 : binary64.LinearRegression :=
  binary64.mkLinearRegression (S754_finite false 5629499534213118 (-50))
    (S754_finite false 7740561859543040 (-46)).

(** * The functions, one by one *)

Section semantics.
Context `{RandomState}.

Lemma outcome_bind_Returns {A B} (a : A) (f : A → outcome B) :
  (Returns a ≫= f) = f a.
Proof. reflexivity. Qed.

Lemma bind_run {A B} (m : M A) (f : A → M B) (σ : heap) :
  (m ≫= f) σ =
  match m σ with
  | (Returns a, σ') => f a σ'
  | (Raises e, σ') => (Raises e, σ')
  end.
Proof. reflexivity. Qed.

Lemma lift_bind_run {A B} (o : outcome A) (f : A → M B) (σ : heap) :
  (lift o ≫= f) σ =
  match o with
  | Returns a => f a σ
  | Raises e => (Raises e, σ)
  end.
Proof. rewrite bind_run. unfold lift. by destruct o. Qed.

Lemma load_run (l : loc) (σ : heap) (df : DataFrame) :
  σ !! l = Some df → load l σ = (Returns df, σ).
Proof. intros Hl. unfold load. by rewrite Hl. Qed.

Lemma prepare_data_run (l : loc) (σ : heap) (df : DataFrame) :
  σ !! l = Some df →
  prepare_data l σ = (Returns l, <[l := prepared df]> σ).
Proof.
  intros Hl. unfold prepare_data.
  rewrite bind_run, (load_run _ _ _ Hl), bind_run. unfold store at 1.
  rewrite (insert_id σ l df Hl).
  rewrite bind_run, (load_run _ _ _ Hl), bind_run. unfold store.
  reflexivity.
Qed.

Lemma train_model_run (l : loc) (σ : heap) (rows : DataFrame) (target : column) :
  σ !! l = Some rows →
  train_model l target σ = (fitted rows target, σ).
Proof.
  intros Hl. unfold train_model, fitted.
  rewrite bind_run, (load_run _ _ _ Hl), lift_bind_run.
  destruct (getitem rows Col_days_since_start) as [X|e]; [|done].
  rewrite lift_bind_run. simpl.
  destruct (getitem rows target) as [y|e]; [|done].
  rewrite lift_bind_run. simpl.
  destruct (train_test_split X y 0.2%Q 42%Z) as [[[[X_train X_test] y_train] y_test]|e];
    [|done].
  rewrite lift_bind_run. simpl.
  by destruct (LinearRegression_fit X_train y_train).
Qed.

Lemma make_predictions_run (model : LinearRegression) (l : loc) (σ : heap)
    (rows : DataFrame) (n : nat) :
  σ !! l = Some rows →
  make_predictions model l n σ = (projected model rows n, σ).
Proof.
  intros Hl. unfold make_predictions, projected.
  rewrite bind_run, (load_run _ _ _ Hl).
  destruct (Series_max (date <$> rows)), (Series_min (date <$> rows)); done.
Qed.

(** Lines 32 to 34 allocate two objects that did not exist, holding the
    income rows and the expenditure rows, and leave every existing object as
    it was. *)
Lemma income_expenditure_frames_run (l : loc) (σ : heap) (rows : DataFrame) :
  σ !! l = Some rows →
  ∃ (income_df expenditure_df : loc) (σ' : heap),
    income_expenditure_frames l σ = (Returns (income_df, expenditure_df), σ')
    ∧ σ !! income_df = None ∧ σ !! expenditure_df = None
    ∧ σ' !! income_df = Some (income_of rows)
    ∧ σ' !! expenditure_df = Some (expenditure_of rows)
    ∧ (∀ k, k ≠ income_df → k ≠ expenditure_df → σ' !! k = σ !! k).
Proof.
  intros Hl.
  set (inc := income_of rows).
  set (neg := filter (λ r, (Transaction_Amount r < 0)%Q) rows).
  set (li := fresh (dom σ)).
  set (σ1 := <[li := inc]> σ).
  set (le := fresh (dom σ1)).
  assert (Hli : σ !! li = None).
  { apply (not_elem_of_dom (D := gset positive)). apply is_fresh. }
  assert (Hle1 : σ1 !! le = None).
  { apply (not_elem_of_dom (D := gset positive)). apply is_fresh. }
  assert (Hne : le ≠ li).
  { intros ->. unfold σ1 in Hle1. by rewrite lookup_insert_eq in Hle1. }
  assert (Hle : σ !! le = None).
  { unfold σ1 in Hle1. by rewrite lookup_insert_ne in Hle1. }
  exists li, le, (<[le := expenditure_of rows]> σ1).
  split.
  { unfold income_expenditure_frames.
    rewrite bind_run, (load_run _ _ _ Hl), bind_run. unfold alloc at 1.
    fold inc li σ1. cbv zeta. rewrite bind_run. unfold alloc.
    fold neg le. cbv zeta.
    rewrite bind_run. unfold load. rewrite lookup_insert_eq.
    rewrite bind_run. unfold store. rewrite insert_insert_eq. reflexivity. }
  repeat split; try done.
  - unfold σ1. rewrite lookup_insert_ne by done. by rewrite lookup_insert_eq.
  - by rewrite lookup_insert_eq.
  - intros k Hki Hke. unfold σ1. by rewrite !lookup_insert_ne.
Qed.

End semantics.

(** ** Series and frames *)

Lemma foldr_min_le (x : Z) (xs : list Z) :
  (foldr Z.min x xs ≤ x)%Z ∧ ∀ d, d ∈ xs → (foldr Z.min x xs ≤ d)%Z.
Proof.
  induction xs as [|a xs [IHx IHxs]]; simpl.
  - split; [lia|]. intros d Hd. by apply elem_of_nil in Hd.
  - split; [lia|]. intros d [->|Hd]%elem_of_cons; [lia|].
    specialize (IHxs d Hd). lia.
Qed.

Lemma foldr_min_elem (x : Z) (xs : list Z) : foldr Z.min x xs ∈ x :: xs.
Proof.
  induction xs as [|a xs IH]; simpl.
  - apply list_elem_of_here.
  - destruct (Z.min_spec a (foldr Z.min x xs)) as [[_ ->]|[_ ->]].
    + apply list_elem_of_further, list_elem_of_here.
    + apply elem_of_cons in IH as [->|IH];
        [apply list_elem_of_here | by do 2 apply list_elem_of_further].
Qed.

Lemma foldr_max_ge (x : Z) (xs : list Z) :
  (x ≤ foldr Z.max x xs)%Z ∧ ∀ d, d ∈ xs → (d ≤ foldr Z.max x xs)%Z.
Proof.
  induction xs as [|a xs [IHx IHxs]]; simpl.
  - split; [lia|]. intros d Hd. by apply elem_of_nil in Hd.
  - split; [lia|]. intros d [->|Hd]%elem_of_cons; [lia|].
    specialize (IHxs d Hd). lia.
Qed.

Lemma foldr_max_elem (x : Z) (xs : list Z) : foldr Z.max x xs ∈ x :: xs.
Proof.
  induction xs as [|a xs IH]; simpl.
  - apply list_elem_of_here.
  - destruct (Z.max_spec a (foldr Z.max x xs)) as [[_ ->]|[_ ->]].
    + apply elem_of_cons in IH as [->|IH];
        [apply list_elem_of_here | by do 2 apply list_elem_of_further].
    + apply list_elem_of_further, list_elem_of_here.
Qed.

Lemma earliest_unique (m m' : Z) (s : list Z) : earliest m s → earliest m' s → m = m'.
Proof. intros [H1 H2] [H3 H4]. specialize (H2 _ H3). specialize (H4 _ H1). lia. Qed.

Lemma latest_unique (m m' : Z) (s : list Z) : latest m s → latest m' s → m = m'.
Proof. intros [H1 H2] [H3 H4]. specialize (H2 _ H3). specialize (H4 _ H1). lia. Qed.

Lemma Series_min_earliest (s : list Z) (m : Z) : Series_min s = Some m ↔ earliest m s.
Proof.
  split.
  - destruct s as [|x xs]; [done|]. intros [= <-]. split; [apply foldr_min_elem|].
    intros d [->|Hd]%elem_of_cons;
        [apply (proj1 (foldr_min_le x xs)) | by apply (proj2 (foldr_min_le x xs))].
  - intros Hm. destruct s as [|x xs].
    + destruct Hm as [Hm _]. by apply elem_of_nil in Hm.
    + simpl. f_equal. apply (earliest_unique _ _ (x :: xs)); [|done].
      split; [apply foldr_min_elem|].
      intros d [->|Hd]%elem_of_cons;
        [apply (proj1 (foldr_min_le x xs)) | by apply (proj2 (foldr_min_le x xs))].
Qed.

Lemma Series_max_latest (s : list Z) (m : Z) : Series_max s = Some m ↔ latest m s.
Proof.
  split.
  - destruct s as [|x xs]; [done|]. intros [= <-]. split; [apply foldr_max_elem|].
    intros d [->|Hd]%elem_of_cons;
        [apply (proj1 (foldr_max_ge x xs)) | by apply (proj2 (foldr_max_ge x xs))].
  - intros Hm. destruct s as [|x xs].
    + destruct Hm as [Hm _]. by apply elem_of_nil in Hm.
    + simpl. f_equal. apply (latest_unique _ _ (x :: xs)); [|done].
      split; [apply foldr_max_elem|].
      intros d [->|Hd]%elem_of_cons;
        [apply (proj1 (foldr_max_ge x xs)) | by apply (proj2 (foldr_max_ge x xs))].
Qed.

Lemma Series_min_is_Some (s : list Z) : s ≠ [] → is_Some (Series_min s).
Proof. destruct s; [done|]. by eexists. Qed.

Lemma Series_max_is_Some (s : list Z) : s ≠ [] → is_Some (Series_max s).
Proof. destruct s; [done|]. by eexists. Qed.


Lemma prepared_date (df : DataFrame) : date <$> prepared df = date <$> df.
Proof. unfold prepared. rewrite <- list_fmap_compose. by apply list_fmap_ext. Qed.

Lemma prepared_Category (df : DataFrame) : Category <$> prepared df = Category <$> df.
Proof. unfold prepared. rewrite <- list_fmap_compose. by apply list_fmap_ext. Qed.

Lemma prepared_Transaction_Amount (df : DataFrame) :
  Transaction_Amount <$> prepared df = Transaction_Amount <$> df.
Proof. unfold prepared. rewrite <- list_fmap_compose. by apply list_fmap_ext. Qed.

Lemma prepared_days_since_start (df : DataFrame) (m : Z) (r : Transaction) :
  earliest m (date <$> df) → r ∈ prepared df →
  days_since_start r = Some (date r - m)%Z.
Proof.
  intros Hm%Series_min_earliest Hr. unfold prepared in Hr. rewrite Hm in Hr.
  apply list_elem_of_fmap in Hr as (r0 & -> & _). reflexivity.
Qed.

Lemma prepared_idemp (df : DataFrame) : prepared (prepared df) = prepared df.
Proof.
  unfold prepared at 1. rewrite prepared_date. unfold prepared.
  rewrite <- list_fmap_compose. by apply list_fmap_ext.
Qed.

(** ** Column selection and the train/test split *)

Lemma getitem_days_since_start_Returns (rows : DataFrame) (f : Transaction → Z) :
  Forall (λ r, days_since_start r = Some (f r)) rows →
  getitem_days_since_start rows = Returns ((λ r, inject_Z (f r)) <$> rows).
Proof.
  induction 1 as [|r rows Hr _ IH]; [done|].
  simpl. by rewrite Hr, IH.
Qed.

Lemma _safe_indexing_Returns {A} (X : list A) (indices : list nat) (xs : list A) :
  _safe_indexing X indices = Returns xs ↔
  Forall2 (λ i x, X !! i = Some x) indices xs.
Proof.
  revert xs. induction indices as [|i indices IH]; intros xs; simpl.
  - split; [intros [= <-]; constructor | by intros ->%Forall2_nil_inv_l].
  - destruct (X !! i) as [x|] eqn:Hi.
    + destruct (_safe_indexing X indices) as [xs'|e].
      * split.
        -- intros [= <-]. constructor; [done|]. by apply IH.
        -- intros (x' & xs'' & Hx & Hxs & ->)%Forall2_cons_inv_l.
           apply IH in Hxs. congruence.
      * split; [done|].
        intros (x' & xs'' & Hx & Hxs & ->)%Forall2_cons_inv_l.
        by apply IH in Hxs.
    + split; [done|].
      intros (x' & xs'' & Hx & Hxs & ->)%Forall2_cons_inv_l. congruence.
Qed.

Lemma _safe_indexing_total {A} (X : list A) (indices : list nat) :
  Forall (λ i, i < List.length X) indices →
  ∃ xs, _safe_indexing X indices = Returns xs.
Proof.
  induction 1 as [|i indices Hi _ [xs IH]]; [by eexists|].
  apply lookup_lt_is_Some_2 in Hi as [x Hx].
  exists (x :: xs). simpl. by rewrite Hx, IH.
Qed.

(** The size of the test set for [test_size = 0.2]: the training set is
    empty exactly when there are fewer than two samples. *)
Lemma n_test_lt (n : nat) :
  2 ≤ n → Z.to_nat (Qceiling (0.2 * inject_Z (Z.of_nat n))) < n.
Proof.
  intros Hn.
  pose proof (Qceiling_lt (0.2 * inject_Z (Z.of_nat n))) as Hc.
  generalize dependent (Qceiling (0.2 * inject_Z (Z.of_nat n))). intros c Hc.
  assert (Hn' : (2 <= inject_Z (Z.of_nat n))%Q).
  { rewrite <- (Zle_Qle 2). lia. }
  assert (Hlt : (inject_Z c < inject_Z (Z.of_nat n))%Q).
  { assert (Hc' : (inject_Z (c - 1) == inject_Z c - 1)%Q).
    { unfold Z.sub. rewrite inject_Z_plus. reflexivity. }
    rewrite Hc' in Hc. lra. }
  rewrite <- Zlt_Qlt in Hlt. lia.
Qed.

Lemma n_test_small (n : nat) :
  n ≤ 1 → n - Z.to_nat (Qceiling (0.2 * inject_Z (Z.of_nat n))) = 0.
Proof.
  intros Hn. destruct n as [|[|n]]; [reflexivity | reflexivity | lia].
Qed.

Section train_test_split.
Context `{RandomState} {A B : Type}.
Implicit Types (X : list A) (y : list B).

Lemma permutation_length (seed : Z) (n : nat) : List.length (permutation seed n) = n.
Proof. rewrite (permutation_Permutation seed n). apply length_seq. Qed.

Lemma permutation_bound (seed : Z) (n i : nat) : i ∈ permutation seed n → i < n.
Proof. rewrite (permutation_Permutation seed n), elem_of_seq. lia. Qed.

Lemma train_test_split_Raises X y (seed : Z) :
  List.length X ≤ 1 → train_test_split X y 0.2%Q seed = Raises ValueError.
Proof.
  intros Hn. unfold train_test_split. cbv zeta.
  rewrite (n_test_small _ Hn). by rewrite decide_True.
Qed.

(** With two samples or more the split returns, and the training rows of
    [X] and [y] are those at one non-empty list of positions. *)
Lemma train_test_split_Returns X y (seed : Z) :
  2 ≤ List.length X → List.length y = List.length X →
  ∃ X_train X_test y_train y_test (ind_train : list nat),
    train_test_split X y 0.2%Q seed = Returns (X_train, X_test, y_train, y_test)
    ∧ ind_train ≠ []
    ∧ Forall2 (λ i x, X !! i = Some x) ind_train X_train
    ∧ Forall2 (λ i v, y !! i = Some v) ind_train y_train.
Proof.
  intros Hn Hy. unfold train_test_split. cbv zeta.
  pose proof (n_test_lt _ Hn) as Hlt.
  set (n := List.length X) in *.
  set (n_test := Z.to_nat (Qceiling (0.2 * inject_Z (Z.of_nat n)))) in *.
  rewrite decide_False by lia.
  set (p := permutation seed n).
  assert (Hp : Forall (λ i, i < n) p).
  { apply Forall_forall. apply permutation_bound. }
  assert (Htr : Forall (λ i, i < n) (take (n - n_test) (drop n_test p))).
  { by apply Forall_take, Forall_drop. }
  assert (Hte : Forall (λ i, i < n) (take n_test p)).
  { by apply Forall_take. }
  destruct (_safe_indexing_total X _ Htr) as [X_train HX_train].
  destruct (_safe_indexing_total X _ Hte) as [X_test HX_test].
  assert (Htr' : Forall (λ i, i < List.length y) (take (n - n_test) (drop n_test p)))
    by by rewrite Hy.
  assert (Hte' : Forall (λ i, i < List.length y) (take n_test p)) by by rewrite Hy.
  destruct (_safe_indexing_total y _ Htr') as [y_train Hy_train].
  destruct (_safe_indexing_total y _ Hte') as [y_test Hy_test].
  exists X_train, X_test, y_train, y_test, (take (n - n_test) (drop n_test p)).
  rewrite HX_train, HX_test, Hy_train, Hy_test.
  split; [done|]. split.
  - intros Hnil. apply (f_equal List.length) in Hnil.
    rewrite length_take, length_drop in Hnil. unfold p in Hnil.
    rewrite permutation_length in Hnil. simpl in Hnil. lia.
  - split; by apply _safe_indexing_Returns.
Qed.

End train_test_split.

(** ** Fitting and projecting *)

Section fitting.
Context `{RandomState}.

(** On a frame that has its day column and at least two rows, [train_model]
    fits the rows picked by the split: their day indices against their
    amounts. *)
Lemma fitted_split (rows : DataFrame) (f : Transaction → Z) :
  Forall (λ r, days_since_start r = Some (f r)) rows →
  2 ≤ List.length rows →
  ∃ (X_train y_train : list Q) (ind_train : list nat),
    fitted rows Col_Transaction_Amount = LinearRegression_fit X_train y_train
    ∧ ind_train ≠ []
    ∧ Forall2 (λ i x, ∃ r, rows !! i = Some r ∧ x = inject_Z (f r)) ind_train X_train
    ∧ Forall2 (λ i v, ∃ r, rows !! i = Some r ∧ v = Transaction_Amount r) ind_train y_train.
Proof.
  intros Hdays Hn. unfold fitted. cbn [getitem].
  rewrite (getitem_days_since_start_Returns rows f Hdays).
  set (X := (λ r, inject_Z (f r)) <$> rows).
  set (y := Transaction_Amount <$> rows).
  destruct (train_test_split_Returns X y 42%Z)
    as (X_train & X_test & y_train & y_test & ind_train & Hsplit & Hne & HX & Hy).
  { unfold X. by rewrite length_fmap. }
  { unfold X, y. by rewrite !length_fmap. }
  exists X_train, y_train, ind_train.
  split. { cbn. rewrite Hsplit. reflexivity. }
  split; [done|]. split.
  - eapply Forall2_impl; [exact HX|]. intros i x Hi. unfold X in Hi.
    rewrite list_lookup_fmap in Hi. destruct (rows !! i) as [r|]; [|done].
    injection Hi as <-. by exists r.
  - eapply Forall2_impl; [exact Hy|]. intros i v Hi. unfold y in Hi.
    rewrite list_lookup_fmap in Hi. destruct (rows !! i) as [r|]; [|done].
    injection Hi as <-. by exists r.
Qed.

Lemma LinearRegression_fit_Returns (X y : list Q) :
  X ≠ [] → ∃ model, LinearRegression_fit X y = Returns model.
Proof. destruct X; [done|]. intros _. by eexists. Qed.

Lemma fitted_Returns (rows : DataFrame) (f : Transaction → Z) :
  Forall (λ r, days_since_start r = Some (f r)) rows →
  2 ≤ List.length rows →
  ∃ model, fitted rows Col_Transaction_Amount = Returns model.
Proof.
  intros Hdays Hn.
  destruct (fitted_split rows f Hdays Hn) as (X_train & y_train & ind & -> & Hne & HX & _).
  apply LinearRegression_fit_Returns. intros ->.
  apply Forall2_nil_inv_r in HX. done.
Qed.

(** On a frame with fewer than two rows the split refuses. *)
Lemma fitted_Raises (rows : DataFrame) (f : Transaction → Z) :
  Forall (λ r, days_since_start r = Some (f r)) rows →
  List.length rows ≤ 1 →
  fitted rows Col_Transaction_Amount = Raises ValueError.
Proof.
  intros Hdays Hn. unfold fitted. cbn [getitem].
  rewrite (getitem_days_since_start_Returns rows f Hdays). cbn.
  rewrite train_test_split_Raises; [done|]. by rewrite length_fmap.
Qed.

End fitting.

Lemma zip_columns (model : LinearRegression) (first_date start : Z) (s : list nat) :
  let future_dates := (λ i, (start + Z.of_nat i)%Z) <$> s in
  let days := (λ d, (d - first_date)%Z) <$> future_dates in
  zip_with (λ '(d, n) p, mkForecast d n p) (zip future_dates days)
    (LinearRegression_predict model (inject_Z <$> days))
  = future_row model first_date start <$> s.
Proof.
  cbv zeta. unfold LinearRegression_predict.
  induction s as [|i s IH]; [done|].
  cbn. f_equal. exact IH.
Qed.

Lemma projected_Returns (model : LinearRegression) (rows : DataFrame) (n : nat)
    (last_date first_date : Z) :
  latest last_date (date <$> rows) → earliest first_date (date <$> rows) →
  projected model rows n
  = Returns (future_row model first_date (last_date + 1) <$> seq 0 n).
Proof.
  intros Hl%Series_max_latest He%Series_min_earliest.
  unfold projected. rewrite Hl, He. f_equal. unfold date_range.
  apply zip_columns.
Qed.

Lemma projected_total (model : LinearRegression) (rows : DataFrame) (n : nat) :
  rows ≠ [] →
  ∃ last_date first_date,
    latest last_date (date <$> rows) ∧ earliest first_date (date <$> rows)
    ∧ projected model rows n
      = Returns (future_row model first_date (last_date + 1) <$> seq 0 n).
Proof.
  intros Hne.
  assert (Hd : date <$> rows ≠ []) by by destruct rows.
  destruct (Series_max_is_Some _ Hd) as [last_date Hl].
  destruct (Series_min_is_Some _ Hd) as [first_date He].
  apply Series_max_latest in Hl. apply Series_min_earliest in He.
  exists last_date, first_date. split; [done|]. split; [done|].
  by apply projected_Returns.
Qed.

(** ** The subseries *)


Lemma expenditure_of_absolute (rows : DataFrame) :
  expenditure_of rows = absolute <$> expenses_of rows.
Proof. reflexivity. Qed.

Lemma filter_stamp (P : Q → Prop) `{!∀ a, Decision (P a)} (start : option Z)
    (df : DataFrame) :
  filter (λ r, P (Transaction_Amount r)) (stamp start <$> df)
  = stamp start <$> filter (λ r, P (Transaction_Amount r)) df.
Proof.
  induction df as [|r df IH]; [done|].
  rewrite fmap_cons, !filter_cons. cbn [stamp set_days_since_start Transaction_Amount].
  destruct (decide (P (Transaction_Amount r))); by rewrite IH.
Qed.

Lemma income_of_prepared (df : DataFrame) :
  income_of (prepared df) = stamp (Series_min (date <$> df)) <$> income_of df.
Proof. apply (filter_stamp (λ a, (0 < a)%Q)). Qed.

Lemma expenditure_of_prepared (df : DataFrame) :
  expenditure_of (prepared df)
  = absolute <$> (stamp (Series_min (date <$> df)) <$> expenses_of df).
Proof.
  rewrite expenditure_of_absolute. f_equal.
  exact (filter_stamp (λ a, (a < 0)%Q) _ df).
Qed.

Lemma income_of_prepared_date (df : DataFrame) :
  date <$> income_of (prepared df) = date <$> income_of df.
Proof.
  rewrite income_of_prepared, <- list_fmap_compose. by apply list_fmap_ext.
Qed.

Lemma expenditure_of_prepared_date (df : DataFrame) :
  date <$> expenditure_of (prepared df) = date <$> expenses_of df.
Proof.
  rewrite expenditure_of_prepared, <- !list_fmap_compose. by apply list_fmap_ext.
Qed.

Lemma income_of_prepared_length (df : DataFrame) :
  List.length (income_of (prepared df)) = List.length (income_of df).
Proof. by rewrite income_of_prepared, length_fmap. Qed.

Lemma expenditure_of_prepared_length (df : DataFrame) :
  List.length (expenditure_of (prepared df)) = List.length (expenses_of df).
Proof. by rewrite expenditure_of_prepared, !length_fmap. Qed.

(** Every row of either subseries carries the day index taken from the
    earliest date of the whole frame. *)
Lemma income_of_prepared_days (df : DataFrame) (m : Z) :
  earliest m (date <$> df) →
  Forall (λ r, days_since_start r = Some (date r - m)%Z) (income_of (prepared df)).
Proof.
  intros Hm. apply Forall_forall. intros r [_ Hr]%list_elem_of_filter.
  by apply (prepared_days_since_start df).
Qed.

Lemma expenditure_of_prepared_days (df : DataFrame) (m : Z) :
  earliest m (date <$> df) →
  Forall (λ r, days_since_start r = Some (date r - m)%Z) (expenditure_of (prepared df)).
Proof.
  intros Hm. apply Forall_forall. intros r Hr.
  apply list_elem_of_fmap in Hr as (r0 & -> & [_ Hr0]%list_elem_of_filter).
  cbn. by apply (prepared_days_since_start df).
Qed.

Lemma nonempty_earliest (df : DataFrame) :
  df ≠ [] → ∃ m, earliest m (date <$> df).
Proof.
  intros Hne. assert (Hd : date <$> df ≠ []) by by destruct df.
  destruct (Series_min_is_Some _ Hd) as [m Hm]. exists m.
  by apply Series_min_earliest.
Qed.

(** ** The forecaster as a whole *)

Section forecaster.
Context `{RandomState}.

(** The result of [predict_future_transactions] is [forecast] of the frame
    it was given; it leaves the prepared frame at the caller's reference,
    two new objects holding the subseries, and every other object as it
    was. *)
Lemma predict_future_transactions_run (l : loc) (σ : heap) (df : DataFrame) :
  σ !! l = Some df →
  ∃ (income_df expenditure_df : loc) (σ' : heap),
    predict_future_transactions l σ = (forecast df, σ')
    ∧ σ !! income_df = None ∧ σ !! expenditure_df = None
    ∧ σ' !! l = Some (prepared df)
    ∧ σ' !! income_df = Some (income_of (prepared df))
    ∧ σ' !! expenditure_df = Some (expenditure_of (prepared df))
    ∧ (∀ k, k ≠ l → k ≠ income_df → k ≠ expenditure_df → σ' !! k = σ !! k).
Proof.
  intros Hl.
  assert (Hl1 : <[l := prepared df]> σ !! l = Some (prepared df))
    by apply lookup_insert_eq.
  destruct (income_expenditure_frames_run l _ _ Hl1)
    as (li & le & σ' & Hrun & Hli & Hle & Hi & He & Hframe).
  assert (Hli' : l ≠ li) by (intros ->; congruence).
  assert (Hle' : l ≠ le) by (intros ->; congruence).
  rewrite lookup_insert_ne in Hli, Hle by done.
  exists li, le, σ'. split; [|split; [done|split; [done|split; [|split; [done|split; [done|]]]]]].
  - unfold predict_future_transactions, forecast. cbv zeta.
    rewrite bind_run, (prepare_data_run _ _ _ Hl), bind_run, Hrun.
    rewrite bind_run, (train_model_run _ _ _ _ Hi).
    destruct (fitted (income_of (prepared df)) Col_Transaction_Amount)
      as [income_model|e]; [|done].
    rewrite bind_run, (train_model_run _ _ _ _ He).
    destruct (fitted (expenditure_of (prepared df)) Col_Transaction_Amount)
      as [expenditure_model|e]; [|done].
    rewrite !outcome_bind_Returns.
    rewrite bind_run, (make_predictions_run _ _ _ _ _ Hi).
    destruct (projected income_model (income_of (prepared df)) 30)
      as [future_income|e]; [|done].
    rewrite bind_run, (make_predictions_run _ _ _ _ _ He).
    by destruct (projected expenditure_model (expenditure_of (prepared df)) 30).
  - rewrite Hframe by done. apply lookup_insert_eq.
  - intros k Hk Hki Hke. rewrite Hframe by done. by rewrite lookup_insert_ne.
Qed.

Lemma predict_future_transactions_result (l : loc) (σ : heap) (df : DataFrame) :
  σ !! l = Some df → (predict_future_transactions l σ).1 = forecast df.
Proof.
  intros Hl.
  destruct (predict_future_transactions_run l σ df Hl) as (? & ? & ? & -> & _).
  reflexivity.
Qed.

Lemma income_of_nonempty (df : DataFrame) : income_of df ≠ [] → df ≠ [].
Proof. by intros Hi ->. Qed.

(** On an accepted input both models are fitted and both projections are
    made: the forecaster returns, and each sequence is the projection of its
    own subseries. *)
Lemma forecast_accepted (df : DataFrame) :
  accepted df →
  ∃ income_model expenditure_model,
    fitted (income_of (prepared df)) Col_Transaction_Amount = Returns income_model
    ∧ fitted (expenditure_of (prepared df)) Col_Transaction_Amount
      = Returns expenditure_model
    ∧ forecast df
      = (future_income ← projected income_model (income_of (prepared df)) 30;
         future_expenditure ←
           projected expenditure_model (expenditure_of (prepared df)) 30;
         Returns (future_income, future_expenditure)).
Proof.
  intros [Hi He].
  assert (Hne : df ≠ []).
  { apply income_of_nonempty. intros Hnil. rewrite Hnil in Hi. simpl in Hi. lia. }
  destruct (nonempty_earliest df Hne) as [m Hm].
  destruct (fitted_Returns _ _ (income_of_prepared_days df m Hm)) as [mi Hmi].
  { by rewrite income_of_prepared_length. }
  destruct (fitted_Returns _ _ (expenditure_of_prepared_days df m Hm)) as [me Hme].
  { by rewrite expenditure_of_prepared_length. }
  exists mi, me. split; [done|]. split; [done|].
  unfold forecast. cbv zeta. by rewrite Hmi, Hme, !outcome_bind_Returns.
Qed.

End forecaster.

Section accepted_inputs.
Context `{RandomState}.

(** What the forecaster returns on an accepted input: each sequence holds
    30 rows; those of the income sequence are dated from the day after the
    latest income record, with day indices counted from the earliest income
    record, and likewise for expenditure. *)
Lemma forecast_explicit (df : DataFrame) :
  accepted df →
  ∃ income_model expenditure_model last_i first_i last_e first_e,
    fitted (income_of (prepared df)) Col_Transaction_Amount = Returns income_model
    ∧ fitted (expenditure_of (prepared df)) Col_Transaction_Amount
      = Returns expenditure_model
    ∧ latest last_i (date <$> income_of df)
    ∧ earliest first_i (date <$> income_of df)
    ∧ latest last_e (date <$> expenses_of df)
    ∧ earliest first_e (date <$> expenses_of df)
    ∧ forecast df
      = Returns (future_row income_model first_i (last_i + 1) <$> seq 0 30,
                 future_row expenditure_model first_e (last_e + 1) <$> seq 0 30).
Proof.
  intros Hacc. pose proof Hacc as [Hi He].
  destruct (forecast_accepted df Hacc) as (mi & me & Hmi & Hme & ->).
  assert (Hni : income_of (prepared df) ≠ []).
  { intros Hnil. apply (f_equal List.length) in Hnil.
    rewrite income_of_prepared_length in Hnil. simpl in Hnil. lia. }
  assert (Hne : expenditure_of (prepared df) ≠ []).
  { intros Hnil. apply (f_equal List.length) in Hnil.
    rewrite expenditure_of_prepared_length in Hnil. simpl in Hnil. lia. }
  destruct (projected_total mi _ 30 Hni) as (last_i & first_i & Hli & Hfi & ->).
  destruct (projected_total me _ 30 Hne) as (last_e & first_e & Hle & Hfe & ->).
  rewrite income_of_prepared_date in Hli, Hfi.
  rewrite expenditure_of_prepared_date in Hle, Hfe.
  by exists mi, me, last_i, first_i, last_e, first_e.
Qed.

End accepted_inputs.

(** ** The rows of a projection *)

Lemma future_row_date (model : LinearRegression) (first_date start : Z) (n : nat) :
  future_date <$> (future_row model first_date start <$> seq 0 n) = date_range start n.
Proof. unfold date_range. rewrite <- list_fmap_compose. by apply list_fmap_ext. Qed.

Lemma date_range_lookup (start : Z) (n i : nat) (d : Z) :
  date_range start n !! i = Some d ↔ i < n ∧ d = (start + Z.of_nat i)%Z.
Proof.
  unfold date_range. rewrite list_lookup_fmap. split.
  - destruct (seq 0 n !! i) as [j|] eqn:Hj; [|done].
    apply lookup_seq in Hj as [-> Hi]. intros [= <-]. done.
  - intros [Hi ->]. by rewrite lookup_seq_lt.
Qed.

Lemma date_range_consecutive (start : Z) (n : nat) : consecutive (date_range start n).
Proof.
  intros i d d' [_ ->]%date_range_lookup [_ ->]%date_range_lookup. lia.
Qed.

Lemma date_range_length (start : Z) (n : nat) : List.length (date_range start n) = n.
Proof. unfold date_range. by rewrite length_fmap, length_seq. Qed.

(** ** Too few records *)

Lemma forecast_single_income (rs : RandomState) (df : DataFrame) :
  List.length (income_of df) = 1 → @forecast rs df = Raises ValueError.
Proof.
  intros Hi.
  assert (Hne : df ≠ []).
  { apply income_of_nonempty. intros Hnil. by rewrite Hnil in Hi. }
  destruct (nonempty_earliest df Hne) as [m Hm].
  unfold forecast. cbv zeta.
  rewrite (fitted_Raises _ _ (income_of_prepared_days df m Hm)); [done|].
  rewrite income_of_prepared_length. lia.
Qed.

(** ** The caller's frame *)

(** After the call the caller's reference holds the prepared frame. *)
Lemma predict_future_transactions_heap `{RandomState} (l : loc) (σ : heap)
    (df : DataFrame) :
  σ !! l = Some df → (predict_future_transactions l σ).2 !! l = Some (prepared df).
Proof.
  intros Hl.
  destruct (predict_future_transactions_run l σ df Hl)
    as (li & le & σ' & -> & _ & _ & Hl' & _).
  exact Hl'.
Qed.

(** ** Partitioning by sign *)

(** Every row falls in exactly one of three classes, by the sign of its
    amount. *)
Lemma sign_partition (rows : DataFrame) :
  rows ≡ₚ income_of rows ++ expenses_of rows
            ++ filter (λ r, (Transaction_Amount r == 0)%Q) rows.
Proof.
  unfold income_of, expenses_of.
  induction rows as [|r rows IH]; [done|].
  rewrite !filter_cons.
  destruct (decide (0 < Transaction_Amount r)%Q) as [Hp|Hp],
    (decide (Transaction_Amount r < 0)%Q) as [Hn|Hn],
    (decide (Transaction_Amount r == 0)%Q) as [Hz|Hz]; try lra.
  - cbn. by constructor.
  - rewrite <- app_comm_cons, <- Permutation_middle. by constructor.
  - rewrite (app_assoc _ _ (r :: _)), <- Permutation_middle, <- app_assoc.
    by constructor.
Qed.

(** ** Least squares on data that lie on a line *)

Lemma np_sum_cons (x : Q) (l : list Q) : np_sum (x :: l) = (x + np_sum l)%Q.
Proof. reflexivity. Qed.

Section least_squares.
Variables a b : Q.

Lemma inject_Z_length_cons {A} (x : A) (l : list A) :
  (inject_Z (Z.of_nat (List.length (x :: l))) == inject_Z (Z.of_nat (List.length l)) + 1)%Q.
Proof.
  cbn [List.length]. rewrite Nat2Z.inj_succ. unfold Z.succ.
  rewrite inject_Z_plus. reflexivity.
Qed.

Lemma inject_Z_length_nonzero {A} (l : list A) :
  l ≠ [] → ¬ (inject_Z (Z.of_nat (List.length l)) == 0)%Q.
Proof.
  intros Hne Hz. destruct l as [|x l]; [done|].
  apply (proj1 (inject_Z_injective _ 0)) in Hz.
  cbn [List.length] in Hz. lia.
Qed.





End least_squares.





(** ** The split of a frame and of its columns *)

Lemma _safe_indexing_fmap {A A'} (f : A → A') (X : list A) (indices : list nat) :
  _safe_indexing (f <$> X) indices
  = match _safe_indexing X indices with
    | Returns xs => Returns (f <$> xs)
    | Raises e => Raises e
    end.
Proof.
  induction indices as [|i indices IH]; [done|].
  cbn [_safe_indexing]. rewrite list_lookup_fmap, IH.
  destruct (X !! i); [|done]. cbn. by destruct (_safe_indexing X indices).
Qed.

Lemma _safe_indexing_elem {A} (X : list A) (indices : list nat) (xs : list A) (x : A) :
  _safe_indexing X indices = Returns xs → x ∈ xs → x ∈ X.
Proof.
  intros Hxs Hx. apply _safe_indexing_Returns in Hxs.
  apply list_elem_of_lookup in Hx as [k Hk].
  destruct (Forall2_lookup_r _ _ _ _ _ Hxs Hk) as (i & _ & Hi).
  by apply list_elem_of_lookup_2 in Hi.
Qed.

Section split_of_columns.
Context `{RandomState} {A B A' B' : Type}.

(** The positions picked by the split depend on the number of rows only, so
    the split of two columns of a frame is the columns of the split of the
    frame. *)
Lemma train_test_split_fmap (f : A → A') (g : B → B') (X : list A) (y : list B)
    (test_size : Q) (seed : Z) (X_train X_test : list A) (y_train y_test : list B) :
  train_test_split X y test_size seed = Returns (X_train, X_test, y_train, y_test) →
  train_test_split (f <$> X) (g <$> y) test_size seed
  = Returns (f <$> X_train, f <$> X_test, g <$> y_train, g <$> y_test).
Proof.
  unfold train_test_split. cbv zeta. rewrite length_fmap.
  destruct (decide _); [done|].
  rewrite !_safe_indexing_fmap.
  destruct (_safe_indexing X (take _ (drop _ _))); [|done].
  destruct (_safe_indexing X (take _ (permutation _ _))); [|done].
  destruct (_safe_indexing y (take _ (drop _ _))); [|done].
  destruct (_safe_indexing y (take _ (permutation _ _))); [|done].
  intros Heq. by injection Heq as -> -> -> ->.
Qed.

Lemma train_test_split_elem (X : list A) (y : list B) (test_size : Q) (seed : Z)
    (X_train X_test : list A) (y_train y_test : list B) (x : A) :
  train_test_split X y test_size seed = Returns (X_train, X_test, y_train, y_test) →
  x ∈ X_train → x ∈ X.
Proof.
  unfold train_test_split. cbv zeta.
  destruct (decide _); [done|].
  destruct (_safe_indexing X (take _ (drop _ _))) eqn:Htr; [|done].
  destruct (_safe_indexing X (take _ (permutation _ _))); [|done].
  destruct (_safe_indexing y (take _ (drop _ _))); [|done].
  destruct (_safe_indexing y (take _ (permutation _ _))); [|done].
  intros Heq Hx. injection Heq as -> -> -> ->. exact (_safe_indexing_elem _ _ _ x Htr Hx).
Qed.

End split_of_columns.

Lemma train_test_split_same `{RandomState} {A} (X : list A) (test_size : Q) (seed : Z)
    (X_train X_test X_train' X_test' : list A) :
  train_test_split X X test_size seed = Returns (X_train, X_test, X_train', X_test') →
  X_train' = X_train.
Proof.
  unfold train_test_split. cbv zeta.
  destruct (decide _); [done|].
  destruct (_safe_indexing X (take _ (drop _ _))); [|done].
  destruct (_safe_indexing X (take _ (permutation _ _))); [|done].
  intros Heq. by injection Heq as -> -> -> ->.
Qed.

Ltac by_Series_max := apply Series_max_latest; vm_compute; reflexivity.
Ltac by_Series_min := apply Series_min_earliest; vm_compute; reflexivity.


(** * binary64

    The operations of [SpecFloat] round to nearest: a finite result is
    within half a unit in the last place of the exact one. *)

(** ** Powers of two *)
Lemma bpow_pos (e : Z) : (0 < bpow e)%Q.
Proof. apply Qpower_0_lt. reflexivity. Qed.

Lemma bpow_add (a b : Z) : (bpow (a + b) == bpow a * bpow b)%Q.
Proof. apply Qpower_plus. discriminate. Qed.

Lemma bpow_inject (n : Z) : (0 ≤ n)%Z → (inject_Z (2 ^ n) == bpow n)%Q.
Proof. intros Hn. unfold bpow. by rewrite Zpower_Qpower. Qed.

Lemma bpow_1 : (bpow 1 == 2)%Q.
Proof. reflexivity. Qed.

Lemma bpow_opp_1 : (bpow (-1) == 1 # 2)%Q.
Proof. reflexivity. Qed.

Lemma bpow_le (a b : Z) : (a ≤ b)%Z → (bpow a <= bpow b)%Q.
Proof.
  intros Hab. replace b with (a + (b - a))%Z by lia. rewrite bpow_add.
  assert (1 <= bpow (b - a))%Q.
  { apply Qpower_1_le; [discriminate | lia]. }
  pose proof (bpow_pos a). nra.
Qed.

Lemma represents_Qeq (mrs : shr_record) (x y : Q) :
  (x == y)%Q → represents mrs x → represents mrs y.
Proof.
  intros Hxy [Hm Hx]. split; [done|].
  destruct (shr_r mrs), (shr_s mrs); rewrite <- Hxy; done.
Qed.

(** ** Right shifts with a round bit and a sticky bit *)

Lemma inject_Z_xO (p : positive) : (inject_Z (Z.pos p~0) == 2 * inject_Z (Z.pos p))%Q.
Proof. rewrite Pos2Z.inj_xO, inject_Z_mult. reflexivity. Qed.

Lemma inject_Z_xI (p : positive) : (inject_Z (Z.pos p~1) == 2 * inject_Z (Z.pos p) + 1)%Q.
Proof. rewrite Pos2Z.inj_xI, inject_Z_plus, inject_Z_mult. reflexivity. Qed.

(** One shift to the right halves the number. *)
Lemma shr_1_represents (mrs : shr_record) (x : Q) :
  represents mrs x → represents (shr_1 mrs) (x * (1 # 2))%Q.
Proof.
  destruct mrs as [m r s]. intros [Hm Hx]. cbn in Hm, Hx.
  destruct m as [|p|p]; [| |lia].
  - change (inject_Z 0) with 0%Q in Hx.
    destruct r, s; cbn; (split; [done|]); cbn; cbn in Hx;
      change (inject_Z 0) with 0%Q; lra.
  - destruct p as [p|p|];
      [pose proof (inject_Z_xI p) | pose proof (inject_Z_xO p) | ];
      destruct r, s; (split; [cbn; lia|]); cbn; cbn in Hx;
      clear Hm; change (inject_Z 0) with 0%Q; change (inject_Z 1) with 1%Q in *; lra.
Qed.

(** [p] shifts divide it by [2 ^ p]. *)
Lemma iter_pos_shr_1_represents (p : positive) (mrs : shr_record) (x : Q) :
  represents mrs x → represents (iter_pos shr_1 p mrs) (x * bpow (Z.neg p))%Q.
Proof.
  revert mrs x. induction p as [p IH|p IH|]; intros mrs x Hx; cbn [iter_pos].
  - apply (represents_Qeq _ (x * (1 # 2) * bpow (Z.neg p) * bpow (Z.neg p))%Q).
    { replace (Z.neg p~1) with (-1 + Z.neg p + Z.neg p)%Z by lia.
      rewrite !bpow_add, bpow_opp_1. ring. }
    by apply IH, IH, shr_1_represents.
  - apply (represents_Qeq _ (x * bpow (Z.neg p) * bpow (Z.neg p))%Q).
    { replace (Z.neg p~0) with (Z.neg p + Z.neg p)%Z by lia.
      rewrite !bpow_add. ring. }
    by apply IH, IH.
  - by apply shr_1_represents.
Qed.

Lemma represents_floor (mrs : shr_record) (x : Q) :
  represents mrs x → (inject_Z (shr_m mrs) <= x ∧ x < inject_Z (shr_m mrs) + 1)%Q.
Proof. intros [_ Hx]. destruct (shr_r mrs), (shr_s mrs); lra. Qed.

(** The mantissa chosen from the round bit and the sticky bit is an integer
    nearest to the number. *)
Lemma round_nearest_even_near (mrs : shr_record) (x : Q) :
  represents mrs x →
  (0 ≤ round_nearest_even (shr_m mrs) (loc_of_shr_record mrs))%Z
  ∧ (Qabs (inject_Z (round_nearest_even (shr_m mrs) (loc_of_shr_record mrs)) - x)
     <= 1 # 2)%Q.
Proof.
  destruct mrs as [m r s]. intros [Hm Hx]. cbn in Hm, Hx.
  destruct r, s; cbn [round_nearest_even loc_of_shr_record shr_m shr_r shr_s];
    try destruct (Z.even m); (split; [lia|]);
    apply Qabs_Qle_condition; rewrite ?inject_Z_plus;
    change (inject_Z 1) with 1%Q; lra.
Qed.

(** The number of binary digits of a mantissa. *)
Lemma digits2_pos_bounds (p : positive) :
  (2 ^ (Z.pos (digits2_pos p) - 1) ≤ Z.pos p < 2 ^ Z.pos (digits2_pos p))%Z.
Proof.
  induction p as [p IH|p IH|]; cbn [digits2_pos]; [| |by cbn].
  - rewrite Pos2Z.inj_succ.
    replace (Z.succ (Z.pos (digits2_pos p)) - 1)%Z
      with (Z.succ (Z.pos (digits2_pos p) - 1)) by lia.
    rewrite !Z.pow_succ_r by lia. lia.
  - rewrite Pos2Z.inj_succ.
    replace (Z.succ (Z.pos (digits2_pos p)) - 1)%Z
      with (Z.succ (Z.pos (digits2_pos p) - 1)) by lia.
    rewrite !Z.pow_succ_r by lia. lia.
Qed.

Lemma Zdigits2_small (m : Z) : (0 ≤ m < 2 ^ 53)%Z → (Zdigits2 m ≤ 53)%Z.
Proof.
  intros [Hm Hlt]. destruct m as [|p|p]; [done| |lia]. cbn [Zdigits2].
  pose proof (digits2_pos_bounds p) as [Hlow _].
  assert (2 ^ (Z.pos (digits2_pos p) - 1) < 2 ^ 53)%Z as Hpow by lia.
  apply Z.pow_lt_mono_r_iff in Hpow; lia.
Qed.

(** What the right shift to the exponent of the format leaves of a
    mantissa. *)
Lemma shr_fexp_represents (m e : Z) :
  (0 ≤ m)%Z →
  ∃ mrs e', shr_fexp 53 1024 m e loc_Exact = (mrs, e')
    ∧ e' = Z.max e (fexp 53 1024 (Zdigits2 m + e))
    ∧ represents mrs (inject_Z m * bpow (e - e'))%Q.
Proof.
  intros Hm. unfold shr_fexp, shr.
  destruct (fexp 53 1024 (Zdigits2 m + e) - e)%Z as [|p|p] eqn:Hn.
  - eexists _, _. split; [reflexivity|]. split; [lia|].
    split; [done|]. cbn. rewrite Z.sub_diag. change (bpow 0) with 1%Q. ring.
  - eexists _, _. split; [reflexivity|]. split; [lia|].
    replace (e - (e + Z.pos p))%Z with (Z.neg p) by lia.
    apply iter_pos_shr_1_represents. split; [done|]. cbn. reflexivity.
  - eexists _, _. split; [reflexivity|]. split; [lia|].
    split; [done|]. cbn. rewrite Z.sub_diag. change (bpow 0) with 1%Q. ring.
Qed.

(** ** Rounding to nearest *)

Lemma inject_Z_succ_le (a b : Z) : (a < b)%Z → (inject_Z a + 1 <= inject_Z b)%Q.
Proof.
  intros Hab. change 1%Q with (inject_Z 1). rewrite <- inject_Z_plus.
  rewrite <- Zle_Qle. lia.
Qed.

Lemma integer_floor (a b : Z) :
  (inject_Z a <= inject_Z b ∧ inject_Z b < inject_Z a + 1)%Q → a = b.
Proof.
  intros [Hle Hlt]. rewrite <- Zle_Qle in Hle.
  destruct (Z.eq_dec a b) as [|Hne]; [done|].
  pose proof (inject_Z_succ_le a b ltac:(lia)). lra.
Qed.

Lemma integer_near (a b : Z) : (Qabs (inject_Z a - inject_Z b) <= 1 # 2)%Q → a = b.
Proof.
  intros Hab%Qabs_Qle_condition.
  destruct (Z.lt_trichotomy a b) as [Hlt|[Heq|Hgt]]; [|done|].
  - pose proof (inject_Z_succ_le a b Hlt). lra.
  - pose proof (inject_Z_succ_le b a ltac:(lia)). lra.
Qed.

Lemma fexp_eq (e : Z) : fexp 53 1024 e = Z.max (e - 53) (-1074).
Proof. reflexivity. Qed.

Lemma relative_bound_nonneg (mx : positive) (ex : Z) :
  (0 <= bpow (-53) * (inject_Z (Z.pos mx) * bpow ex))%Q.
Proof.
  apply Qmult_le_0_compat; [apply Qlt_le_weak, bpow_pos|].
  apply Qmult_le_0_compat; [|apply Qlt_le_weak, bpow_pos].
  rewrite <- (Zle_Qle 0). lia.
Qed.

(** The mantissa and exponent that [binary_round_aux] settles on. *)
Lemma binary_round_aux_rounds (s : bool) (mx : positive) (ex : Z) :
  ∃ (m e : Z),
    (0 ≤ m)%Z
    ∧ binary_round_aux 53 1024 s (Z.pos mx) ex loc_Exact
      = match m with
        | Z0 => S754_zero s
        | Z.pos p => if (e <=? 1024 - 53)%Z then S754_finite s p e else S754_infinity s
        | Z.neg _ => S754_nan
        end
    ∧ (Qabs (inject_Z m * bpow e - inject_Z (Z.pos mx) * bpow ex)
       <= bpow (-53) * (inject_Z (Z.pos mx) * bpow ex) + bpow (-1075))%Q
    ∧ ((bpow (-1022) <= inject_Z (Z.pos mx) * bpow ex)%Q →
       (Qabs (inject_Z m * bpow e - inject_Z (Z.pos mx) * bpow ex)
        <= bpow (-53) * (inject_Z (Z.pos mx) * bpow ex))%Q).
Proof.
  unfold binary_round_aux.
  destruct (shr_fexp_represents (Z.pos mx) ex) as (mrs1 & e1 & -> & He1 & Hrep1); [lia|].
  destruct (round_nearest_even_near _ _ Hrep1) as [Hm1 Hnear].
  set (m1 := round_nearest_even (shr_m mrs1) (loc_of_shr_record mrs1)) in *.
  destruct (shr_fexp_represents m1 e1 Hm1) as (mrs2 & e2 & -> & He2 & Hrep2).
  cbn [Zdigits2] in He1. rewrite fexp_eq in He1, He2.
  pose proof (digits2_pos_bounds mx) as [Hlow Hhigh].
  set (d := Z.pos (digits2_pos mx)) in *.
  assert (Hd : (1 ≤ d)%Z) by (unfold d; lia).
  (* the second shift loses nothing *)
  assert (Hexact : (inject_Z (shr_m mrs2) * bpow e2 == inject_Z m1 * bpow e1)%Q).
  { destruct (decide (e1 = ex)) as [Hsame|Hshift].
    - (* no first shift, so [m1] is [mx] *)
      assert (m1 = Z.pos mx) as Hm1eq.
      { apply integer_near. rewrite Hsame, Z.sub_diag in Hnear.
        change (bpow 0) with 1%Q in Hnear. by rewrite Qmult_1_r in Hnear. }
      rewrite Hm1eq in He2. cbn [Zdigits2] in He2. fold d in He2.
      assert (e2 = e1) as -> by lia.
      apply represents_floor in Hrep2. rewrite Z.sub_diag in Hrep2.
      change (bpow 0) with 1%Q in Hrep2. rewrite Qmult_1_r in Hrep2.
      by rewrite (integer_floor _ _ Hrep2).
    - (* a first shift: [m1] is at most [2 ^ 53] *)
      assert (He1' : e1 = Z.max (d + ex - 53) (-1074)) by lia.
      assert (Hx1 : (inject_Z (Z.pos mx) * bpow (ex - e1) < inject_Z (2 ^ 53))%Q).
      { apply Qlt_le_trans with (inject_Z (2 ^ d) * bpow (ex - e1))%Q.
        - apply Qmult_lt_compat_r; [apply bpow_pos|]. rewrite <- Zlt_Qlt. lia.
        - rewrite !bpow_inject by lia. rewrite <- bpow_add.
          apply bpow_le. lia. }
      assert (Hm1le : (m1 ≤ 2 ^ 53)%Z).
      { apply Qabs_Qle_condition in Hnear.
        destruct (Z_le_gt_dec m1 (2 ^ 53)) as [|Hgt]; [done|].
        pose proof (inject_Z_succ_le (2 ^ 53) m1 ltac:(lia)). lra. }
      destruct (decide (m1 = 2 ^ 53)%Z) as [Htop|Hbelow].
      + rewrite Htop in He2, Hrep2 |- *.
        change (Zdigits2 (2 ^ 53)) with 54%Z in He2.
        assert (e2 = e1 + 1)%Z as -> by lia.
        apply represents_floor in Hrep2.
        replace (e1 - (e1 + 1))%Z with (-1)%Z in Hrep2 by lia.
        assert (Hhalf : (inject_Z (2 ^ 53) * bpow (-1) == inject_Z (2 ^ 52))%Q)
          by reflexivity.
        rewrite Hhalf in Hrep2.
        rewrite (integer_floor _ _ Hrep2), bpow_add, <- Hhalf, bpow_1, bpow_opp_1.
        ring.
      + pose proof (Zdigits2_small m1). 
        assert (e2 = e1) as -> by lia.
        apply represents_floor in Hrep2. rewrite Z.sub_diag in Hrep2.
        change (bpow 0) with 1%Q in Hrep2. rewrite Qmult_1_r in Hrep2.
        by rewrite (integer_floor _ _ Hrep2). }
  exists (shr_m mrs2), e2. split; [by destruct Hrep2|]. split.
  { destruct Hrep2 as [Hnonneg _]. by destruct (shr_m mrs2). }
  rewrite Hexact. clear Hexact Hrep2 He2.
  assert (Hnormal : (bpow (-1022) <= inject_Z (Z.pos mx) * bpow ex)%Q →
                    (-1074 ≤ d + ex - 53)%Z).
  { intros Hv. destruct (Z_le_gt_dec (-1074) (d + ex - 53)) as [|Hsmall]; [done|].
    assert (inject_Z (Z.pos mx) * bpow ex < bpow (-1022))%Q; [|lra].
    apply Qlt_le_trans with (inject_Z (2 ^ d) * bpow ex)%Q.
    - apply Qmult_lt_compat_r; [apply bpow_pos|]. rewrite <- Zlt_Qlt. lia.
    - rewrite bpow_inject, <- bpow_add by lia. apply bpow_le. lia. }
  destruct (decide (e1 = ex)) as [Hsame|Hshift].
  - assert (m1 = Z.pos mx) as ->.
    { apply integer_near. rewrite Hsame, Z.sub_diag in Hnear.
      change (bpow 0) with 1%Q in Hnear. by rewrite Qmult_1_r in Hnear. }
    rewrite Hsame.
    assert (Hzero : (inject_Z (Z.pos mx) * bpow ex - inject_Z (Z.pos mx) * bpow ex
                     == 0)%Q) by ring.
    rewrite Hzero. change (Qabs 0) with 0%Q.
    pose proof (relative_bound_nonneg mx ex). pose proof (bpow_pos (-1075)).
    split; [lra|]. intros _. lra.
  - assert (He1' : e1 = Z.max (d + ex - 53) (-1074)) by lia.
    assert (Hhalf : (Qabs (inject_Z m1 * bpow e1 - inject_Z (Z.pos mx) * bpow ex)
                    <= bpow (e1 - 1))%Q).
    { assert (Hfactor : (inject_Z m1 * bpow e1 - inject_Z (Z.pos mx) * bpow ex
                         == (inject_Z m1 - inject_Z (Z.pos mx) * bpow (ex - e1))
                            * bpow e1)%Q).
      { replace ex with ((ex - e1) + e1)%Z at 1 by lia. rewrite bpow_add. ring. }
      rewrite Hfactor.
      rewrite Qabs_Qmult, (Qabs_pos (bpow e1)) by apply Qlt_le_weak, bpow_pos.
      replace (e1 - 1)%Z with (-1 + e1)%Z by lia. rewrite bpow_add, bpow_opp_1.
      apply Qmult_le_compat_r; [done|apply Qlt_le_weak, bpow_pos]. }
    assert (Hrel : (-1074 ≤ d + ex - 53)%Z →
                   (bpow (e1 - 1) <= bpow (-53) * (inject_Z (Z.pos mx) * bpow ex))%Q).
    { intros Hbig. replace (e1 - 1)%Z with (-53 + ((d - 1) + ex))%Z by lia.
      rewrite !bpow_add, <- (bpow_inject (d - 1)) by lia.
      apply Qmult_le_l; [apply bpow_pos|].
      apply Qmult_le_compat_r; [|apply Qlt_le_weak, bpow_pos].
      rewrite <- Zle_Qle. lia. }
    split.
    + destruct (Z_le_gt_dec (-1074) (d + ex - 53)) as [Hbig|Hsmall].
      * pose proof (Hrel Hbig). pose proof (bpow_pos (-1075)). lra.
      * assert (e1 = (-1074)%Z) as Hmin by lia. rewrite Hmin in Hhalf |- *.
        change (-1074 - 1)%Z with (-1075)%Z in Hhalf.
        pose proof (relative_bound_nonneg mx ex). lra.
    + intros Hv. pose proof (Hrel (Hnormal Hv)). lra.
Qed.

Lemma float64_value_finite (s : bool) (m : positive) (e : Z) :
  float64_value (S754_finite s m e) = (inject_Z (cond_Zopp s (Z.pos m)) * bpow e)%Q.
Proof. reflexivity. Qed.

Lemma inject_Z_cond_Zopp (s : bool) (m : Z) :
  (inject_Z (cond_Zopp s m) == if s then - inject_Z m else inject_Z m)%Q.
Proof. destruct s; cbn [cond_Zopp]; [by rewrite inject_Z_opp|reflexivity]. Qed.

Lemma within_rounding_Qeq (r r' v v' : Q) :
  (r == r')%Q → (v == v')%Q → within_rounding r v → within_rounding r' v'.
Proof. intros Hr Hv. unfold within_rounding. by rewrite Hr, Hv. Qed.

Lemma within_rounding_exact (r v : Q) : (r == v)%Q → within_rounding r v.
Proof.
  intros Hrv. unfold within_rounding.
  assert (H0 : (r - v == 0)%Q) by (rewrite Hrv; ring). rewrite H0.
  change (Qabs 0) with 0%Q.
  pose proof (Qabs_nonneg v). pose proof (bpow_pos (-53)). pose proof (bpow_pos (-1075)).
  split; [|intros _]; nra.
Qed.

Lemma Qabs_signed (s : bool) (m : positive) (e : Z) :
  (Qabs (inject_Z (cond_Zopp s (Z.pos m)) * bpow e) == inject_Z (Z.pos m) * bpow e)%Q.
Proof.
  rewrite Qabs_Qmult, (Qabs_pos (bpow e)) by apply Qlt_le_weak, bpow_pos.
  rewrite inject_Z_cond_Zopp.
  assert (0 <= inject_Z (Z.pos m))%Q by (rewrite <- (Zle_Qle 0); lia).
  destruct s; [rewrite Qabs_opp|]; by rewrite Qabs_pos.
Qed.

(** [binary_round_aux] rounds to nearest: when its result is finite, it is
    within half a unit in the last place of the exact value. *)
Lemma binary_round_aux_near (s : bool) (mx : positive) (ex : Z) :
  float64_finite (binary_round_aux 53 1024 s (Z.pos mx) ex loc_Exact) →
  within_rounding (float64_value (binary_round_aux 53 1024 s (Z.pos mx) ex loc_Exact))
    (inject_Z (cond_Zopp s (Z.pos mx)) * bpow ex).
Proof.
  destruct (binary_round_aux_rounds s mx ex) as (m & e & Hm & -> & Hnear & Hnormal).
  unfold within_rounding. rewrite Qabs_signed.
  assert (Hsign : ∀ p : Z,
            (Qabs (inject_Z (cond_Zopp s p) * bpow e
                   - inject_Z (cond_Zopp s (Z.pos mx)) * bpow ex)
             == Qabs (inject_Z p * bpow e - inject_Z (Z.pos mx) * bpow ex))%Q).
  { intros p. rewrite !inject_Z_cond_Zopp. destruct s; [|reflexivity].
    rewrite <- (Qabs_opp (inject_Z p * bpow e - _)). apply Qabs_wd. ring. }
  destruct m as [|p|p]; [| |done]; intros Hfin.
  - cbn [float64_value].
    pose proof (Hsign 0%Z) as H0.
    assert (Hz : (inject_Z (cond_Zopp s 0) * bpow e == 0)%Q).
    { destruct s; cbn [cond_Zopp]; change (inject_Z (- 0)) with 0%Q;
        change (inject_Z 0) with 0%Q; ring. }
    rewrite Hz in H0. by rewrite H0.
  - destruct (e <=? 1024 - 53)%Z; [|done].
    rewrite float64_value_finite. by rewrite Hsign.
Qed.

(** ** Alignment to a smaller exponent *)

Lemma iter_xO_value (m d : positive) :
  Z.pos (Pos.iter xO m d) = (Z.pos m * 2 ^ Z.pos d)%Z.
Proof.
  induction d as [|d IH] using Pos.peano_ind.
  - cbn [Pos.iter]. lia.
  - rewrite Pos.iter_succ, Pos2Z.inj_xO, IH, Pos2Z.inj_succ, Z.pow_succ_r by lia. lia.
Qed.

Lemma shl_align_value (mx : positive) (ex ex' : Z) :
  (inject_Z (Z.pos (shl_align mx ex ex').1) * bpow (shl_align mx ex ex').2
   == inject_Z (Z.pos mx) * bpow ex)%Q.
Proof.
  unfold shl_align. destruct (ex' - ex)%Z as [|d|d] eqn:Hd; cbn [fst snd]; try reflexivity.
  rewrite iter_xO_value, inject_Z_mult, bpow_inject by lia.
  replace ex with (Z.pos d + ex')%Z by lia. rewrite bpow_add. ring.
Qed.

Lemma shl_align_exponent (mx : positive) (ex ex' : Z) :
  (ex' ≤ ex)%Z → (shl_align mx ex ex').2 = ex'.
Proof.
  intros Hle. unfold shl_align. destruct (ex' - ex)%Z as [|d|d] eqn:Hd; cbn [snd]; lia.
Qed.

Lemma signed_Qeq (s : bool) (a b : Z) (e e' : Z) :
  (inject_Z a * bpow e == inject_Z b * bpow e')%Q →
  (inject_Z (cond_Zopp s a) * bpow e == inject_Z (cond_Zopp s b) * bpow e')%Q.
Proof. intros Hab. rewrite !inject_Z_cond_Zopp. destruct s; lra. Qed.

Lemma binary_round_near (s : bool) (mx : positive) (ex : Z) :
  float64_finite (binary_round 53 1024 s mx ex) →
  within_rounding (float64_value (binary_round 53 1024 s mx ex))
    (inject_Z (cond_Zopp s (Z.pos mx)) * bpow ex).
Proof.
  unfold binary_round.
  pose proof (shl_align_value mx ex (fexp 53 1024 (Z.pos (digits2_pos mx) + ex))) as Hv.
  destruct (shl_align mx ex _) as [mz ez]. cbn [fst snd] in Hv.
  intros Hfin. pose proof (binary_round_aux_near s mz ez Hfin) as Hnear.
  eapply within_rounding_Qeq; [reflexivity| |exact Hnear].
  by apply signed_Qeq.
Qed.

(** [binary_normalize]: an integer mantissa and an exponent into binary64. *)
Lemma binary_normalize_near (m e : Z) (szero : bool) :
  float64_finite (binary_normalize 53 1024 m e szero) →
  within_rounding (float64_value (binary_normalize 53 1024 m e szero))
    (inject_Z m * bpow e).
Proof.
  destruct m as [|p|p]; cbn [binary_normalize].
  - intros _. apply within_rounding_exact. cbn [float64_value].
    change (inject_Z 0) with 0%Q. ring.
  - apply (binary_round_near false).
  - apply (binary_round_near true).
Qed.

(** ** The operations *)

(** A product that is finite has finite factors, and is the rounding of
    their exact product. *)
Lemma float64_mul_near (x y : float64) :
  float64_finite (float64_mul x y) →
  float64_finite x ∧ float64_finite y
  ∧ within_rounding (float64_value (float64_mul x y)) (float64_value x * float64_value y).
Proof.
  unfold float64_mul.
  destruct x as [sx|sx| |sx mx ex], y as [sy|sy| |sy my ey]; cbn [SFmul]; try done;
    intros Hfin; (split; [done|]); (split; [done|]);
    try (apply within_rounding_exact; cbn [float64_value]; ring).
  eapply within_rounding_Qeq; [reflexivity| |exact (binary_round_aux_near _ _ _ Hfin)].
  rewrite !float64_value_finite, !inject_Z_cond_Zopp, Pos2Z.inj_mul, inject_Z_mult, bpow_add.
  destruct sx, sy; cbn [xorb]; ring.
Qed.

(** A sum that is finite has finite terms, and is the rounding of their exact
    sum. *)
Lemma float64_add_near (x y : float64) :
  float64_finite (float64_add x y) →
  float64_finite x ∧ float64_finite y
  ∧ within_rounding (float64_value (float64_add x y)) (float64_value x + float64_value y).
Proof.
  unfold float64_add.
  destruct x as [sx|sx| |sx mx ex], y as [sy|sy| |sy my ey]; cbn [SFadd]; try done.
  - intros _. split; [done|]. split; [done|]. apply within_rounding_exact.
    destruct sx, sy; cbn [float64_value]; ring.
  - intros _. split; [done|]. split; [done|]. apply within_rounding_exact.
    cbn [float64_value]. ring.
  - by destruct sx, sy.
  - intros _. split; [done|]. split; [done|]. apply within_rounding_exact.
    cbn [float64_value]. ring.
  - intros Hfin. split; [done|]. split; [done|].
    eapply within_rounding_Qeq; [reflexivity| |exact (binary_normalize_near _ _ _ Hfin)].
    rewrite inject_Z_plus, Qmult_plus_distr_l, !float64_value_finite.
    pose proof (shl_align_value mx ex (Z.min ex ey)) as Hx.
    pose proof (shl_align_value my ey (Z.min ex ey)) as Hy.
    rewrite shl_align_exponent in Hx, Hy by lia.
    by rewrite (signed_Qeq sx _ _ _ _ Hx), (signed_Qeq sy _ _ _ _ Hy).
Qed.

(** An integer converted to binary64 keeps its value up to a relative
    error of [2^-53] (it is exact below [2^53]). *)
Lemma float64_of_int_near (n : Z) :
  float64_finite (float64_of_int n) →
  (Qabs (float64_value (float64_of_int n) - inject_Z n) <= bpow (-53) * Qabs (inject_Z n))%Q.
Proof.
  intros Hfin. destruct (binary_normalize_near n 0 false Hfin) as [_ Hnormal].
  change (bpow 0) with 1%Q in Hnormal. rewrite Qmult_1_r in Hnormal.
  destruct (decide (n = 0%Z)) as [->|Hn].
  { by vm_compute. }
  apply Hnormal. apply Qle_trans with 1%Q; [done|].
  change 1%Q with (inject_Z 1). destruct (Z_le_gt_dec 0 n).
  - rewrite Qabs_pos by (rewrite <- (Zle_Qle 0); lia). rewrite <- Zle_Qle. lia.
  - rewrite Qabs_neg by (rewrite <- (Zle_Qle _ 0); lia).
    rewrite <- inject_Z_opp, <- Zle_Qle. lia.
Qed.

(** ** The value of the fitted line in binary64 *)

(** The three roundings of [x * coef + intercept], with [u] the unit
    roundoff and [η] the underflow unit. *)
Lemma rounding_errors_add_up (u η a b eX eT eP mXC mTB : Q) :
  (0 <= u)%Q → (u <= 1 # 4)%Q → (0 <= η)%Q → (0 <= a)%Q → (0 <= b)%Q → (0 <= eX)%Q →
  (eX <= u * a)%Q → (mXC <= a + eX)%Q → (eT <= u * mXC + η)%Q →
  (mTB <= mXC + eT + b)%Q → (eP <= u * mTB + η)%Q →
  (eP + eT + eX <= 4 * u * (a + b) + 4 * η)%Q.
Proof.
  intros Hu Hu4 Hη Ha Hb HeX HX HmXC HT HmTB HP.
  assert (HmXC' : (u * mXC <= u * (a + u * a))%Q) by nra.
  assert (HeT : (eT <= u * (a + u * a) + η)%Q) by lra.
  assert (HmTB' : (u * mTB <= u * (a + u * a + (u * (a + u * a) + η) + b))%Q) by nra.
  assert (Hua : (0 <= u * a)%Q) by nra.
  assert (Huua : (u * (u * a) <= (1 # 4) * (u * a))%Q) by nra.
  assert (Huuua : (u * (u * (u * a)) <= (1 # 16) * (u * a))%Q) by nra.
  assert (Huη : (u * η <= η)%Q) by nra.
  assert (Hub : (0 <= u * b)%Q) by nra.
  nra.
Qed.

(** The double that [model.predict] computes at the day index [x], against
    the exact value of the line there. *)
Lemma prediction_near (c b : float64) (x : Z) :
  float64_finite (float64_add (float64_mul (float64_of_int x) c) b) →
  (Qabs (float64_value (float64_add (float64_mul (float64_of_int x) c) b)
         - (inject_Z x * float64_value c + float64_value b))
   <= bpow (-51) * (Qabs (inject_Z x * float64_value c) + Qabs (float64_value b))
      + bpow (-1073))%Q.
Proof.
  intros HP.
  destruct (float64_add_near _ _ HP) as (HT & _ & [HPnear _]).
  destruct (float64_mul_near _ _ HT) as (HX & _ & [HTnear _]).
  pose proof (float64_of_int_near x HX) as HXnear.
  set (P := float64_value (float64_add _ _)) in *.
  set (T := float64_value (float64_mul _ _)) in *.
  set (X := float64_value (float64_of_int x)) in *.
  set (C := float64_value c) in *. set (B := float64_value b) in *.
  assert (HeX : (Qabs (X * C - inject_Z x * C) <= bpow (-53) * Qabs (inject_Z x * C))%Q).
  { assert (Hf : (X * C - inject_Z x * C == (X - inject_Z x) * C)%Q) by ring.
    rewrite Hf, !Qabs_Qmult, Qmult_assoc.
    apply Qmult_le_compat_r; [done|apply Qabs_nonneg]. }
  assert (HmXC : (Qabs (X * C) <= Qabs (inject_Z x * C) + Qabs (X * C - inject_Z x * C))%Q).
  { assert (Hf : (X * C == inject_Z x * C + (X * C - inject_Z x * C))%Q) by ring.
    rewrite Hf at 1. apply Qabs_triangle. }
  assert (HmTB : (Qabs (T + B) <= Qabs (X * C) + Qabs (T - X * C) + Qabs B)%Q).
  { assert (Hf : (T + B == X * C + (T - X * C) + B)%Q) by ring.
    rewrite Hf at 1.
    eapply Qle_trans; [apply Qabs_triangle|].
    apply Qplus_le_compat; [apply Qabs_triangle|apply Qle_refl]. }
  assert (Hsum : (Qabs (P - (inject_Z x * C + B))
                  <= Qabs (P - (T + B)) + Qabs (T - X * C)
                     + Qabs (X * C - inject_Z x * C))%Q).
  { assert (Hf : (P - (inject_Z x * C + B)
                  == (P - (T + B)) + (T - X * C) + (X * C - inject_Z x * C))%Q) by ring.
    rewrite Hf at 1.
    eapply Qle_trans; [apply Qabs_triangle|].
    apply Qplus_le_compat; [apply Qabs_triangle|apply Qle_refl]. }
  eapply Qle_trans; [exact Hsum|].
  assert (H51 : (bpow (-51) == 4 * bpow (-53))%Q) by reflexivity.
  assert (H1073 : (bpow (-1073) == 4 * bpow (-1075))%Q) by reflexivity.
  rewrite H51, H1073.
  apply (rounding_errors_add_up (bpow (-53)) (bpow (-1075)) (Qabs (inject_Z x * C))
           (Qabs B) _ _ _ (Qabs (X * C)) (Qabs (T + B)));
    try done; try apply Qabs_nonneg; try apply Qlt_le_weak, bpow_pos.
Qed.

(** ** No overflow below [2^971] *)

Lemma bpow_972 : (bpow 971 * (1 + bpow (-53)) + bpow (-1075) < bpow 972)%Q.
Proof. by vm_compute. Qed.

(** A rounding that overflowed would have a mantissa at an exponent above
    971, which no value below [2^971] rounds to. *)
Lemma binary_round_aux_finite (s : bool) (mx : positive) (ex : Z) :
  (inject_Z (Z.pos mx) * bpow ex < bpow 971)%Q →
  float64_finite (binary_round_aux 53 1024 s (Z.pos mx) ex loc_Exact).
Proof.
  intros Hv.
  destruct (binary_round_aux_rounds s mx ex) as (m & e & Hm & -> & Hnear & _).
  destruct m as [|p|p]; [done| |lia].
  destruct (Z.leb_spec e (1024 - 53)) as [|Hbig]; [done|]. exfalso.
  apply Qabs_Qle_condition in Hnear as [_ Hnear].
  assert (bpow 972 <= inject_Z (Z.pos p) * bpow e)%Q.
  { apply Qle_trans with (1 * bpow e)%Q.
    - rewrite Qmult_1_l. apply bpow_le. lia.
    - apply Qmult_le_compat_r; [|apply Qlt_le_weak, bpow_pos].
      change 1%Q with (inject_Z 1). rewrite <- Zle_Qle. lia. }
  pose proof bpow_972. pose proof (bpow_pos (-53)).
  assert (0 <= inject_Z (Z.pos mx) * bpow ex)%Q.
  { apply Qmult_le_0_compat; [|apply Qlt_le_weak, bpow_pos].
    rewrite <- (Zle_Qle 0). lia. }
  nra.
Qed.

Lemma binary_round_finite (s : bool) (mx : positive) (ex : Z) :
  (inject_Z (Z.pos mx) * bpow ex < bpow 971)%Q →
  float64_finite (binary_round 53 1024 s mx ex).
Proof.
  unfold binary_round.
  pose proof (shl_align_value mx ex (fexp 53 1024 (Z.pos (digits2_pos mx) + ex))) as Hv.
  destruct (shl_align mx ex _) as [mz ez]. cbn [fst snd] in Hv.
  intros Hsmall. apply binary_round_aux_finite. by rewrite Hv.
Qed.

Lemma binary_normalize_finite (m e : Z) (szero : bool) :
  (Qabs (inject_Z m * bpow e) < bpow 971)%Q →
  float64_finite (binary_normalize 53 1024 m e szero).
Proof.
  destruct m as [|p|p]; cbn [binary_normalize]; [done| |]; intros Hv.
  - apply binary_round_finite. by rewrite <- (Qabs_signed false p e).
  - apply binary_round_finite. by rewrite <- (Qabs_signed true p e).
Qed.

Lemma float64_mul_finite (x y : float64) :
  float64_finite x → float64_finite y →
  (Qabs (float64_value x * float64_value y) < bpow 971)%Q →
  float64_finite (float64_mul x y).
Proof.
  unfold float64_mul.
  destruct x as [sx|sx| |sx mx ex], y as [sy|sy| |sy my ey]; cbn [SFmul]; try done.
  intros _ _ Hv. apply binary_round_aux_finite.
  rewrite !float64_value_finite, Qabs_Qmult, !Qabs_signed in Hv.
  rewrite Pos2Z.inj_mul, inject_Z_mult, bpow_add.
  eapply Qle_lt_trans; [|exact Hv]. apply Qle_lteq. right. ring.
Qed.

Lemma float64_add_finite (x y : float64) :
  float64_finite x → float64_finite y →
  (Qabs (float64_value x + float64_value y) < bpow 971)%Q →
  float64_finite (float64_add x y).
Proof.
  unfold float64_add.
  destruct x as [sx|sx| |sx mx ex], y as [sy|sy| |sy my ey]; cbn [SFadd]; try done.
  - intros _ _ _. by destruct sx, sy.
  - intros _ _ Hv. apply binary_normalize_finite.
    eapply Qle_lt_trans; [|exact Hv]. apply Qle_lteq. right. apply Qabs_wd.
    rewrite inject_Z_plus, Qmult_plus_distr_l, !float64_value_finite.
    pose proof (shl_align_value mx ex (Z.min ex ey)) as Hx.
    pose proof (shl_align_value my ey (Z.min ex ey)) as Hy.
    rewrite shl_align_exponent in Hx, Hy by lia.
    by rewrite (signed_Qeq sx _ _ _ _ Hx), (signed_Qeq sy _ _ _ _ Hy).
Qed.

Lemma Qabs_inject_Z_lt (n bound : Z) :
  (Z.abs n < bound)%Z → (Qabs (inject_Z n) < inject_Z bound)%Q.
Proof.
  intros Hn. destruct (Z_le_gt_dec 0 n).
  - rewrite Qabs_pos by (rewrite <- (Zle_Qle 0); lia). rewrite <- Zlt_Qlt. lia.
  - rewrite Qabs_neg by (rewrite <- (Zle_Qle _ 0); lia).
    rewrite <- inject_Z_opp, <- Zlt_Qlt. lia.
Qed.

Lemma float64_of_int_finite (n : Z) :
  (Z.abs n < 2 ^ 63)%Z → float64_finite (float64_of_int n).
Proof.
  intros Hn. apply binary_normalize_finite.
  change (bpow 0) with 1%Q. rewrite Qmult_1_r.
  apply Qlt_trans with (inject_Z (2 ^ 63)); [by apply Qabs_inject_Z_lt|by vm_compute].
Qed.

(** A day index that fits an [int64], and a line whose two terms stay below
    [2^970] in size: no operation of [model.predict] overflows. *)
Lemma prediction_finite (c b : float64) (x : Z) :
  float64_finite c → float64_finite b → (Z.abs x < 2 ^ 63)%Z →
  (Qabs (inject_Z x * float64_value c) + Qabs (float64_value b) < bpow 970)%Q →
  float64_finite (float64_add (float64_mul (float64_of_int x) c) b).
Proof.
  intros Hc Hb Hx Hsize.
  pose proof (float64_of_int_finite x Hx) as HX.
  pose proof (float64_of_int_near x HX) as HXnear.
  set (X := float64_value (float64_of_int x)) in *.
  set (C := float64_value c) in *. set (B := float64_value b) in *.
  assert (HeX : (Qabs (X * C - inject_Z x * C) <= bpow (-53) * Qabs (inject_Z x * C))%Q).
  { assert (Hf : (X * C - inject_Z x * C == (X - inject_Z x) * C)%Q) by ring.
    rewrite Hf, !Qabs_Qmult, Qmult_assoc.
    apply Qmult_le_compat_r; [done|apply Qabs_nonneg]. }
  assert (HmXC : (Qabs (X * C) <= Qabs (inject_Z x * C) + Qabs (X * C - inject_Z x * C))%Q).
  { assert (Hf : (X * C == inject_Z x * C + (X * C - inject_Z x * C))%Q) by ring.
    rewrite Hf at 1. apply Qabs_triangle. }
  pose proof (Qabs_nonneg (inject_Z x * C)) as Ha. pose proof (Qabs_nonneg B) as HB.
  assert (Hu : (bpow (-53) <= 1 # 8)%Q) by by vm_compute.
  assert (Hη : (bpow (-1075) <= 1)%Q) by by vm_compute.
  assert (H971 : (bpow 970 * (3 # 2) + 1 < bpow 971)%Q) by by vm_compute.
  pose proof (bpow_pos (-53)) as Hu0. pose proof (bpow_pos 970) as H970.
  assert (HT : float64_finite (float64_mul (float64_of_int x) c)).
  { apply float64_mul_finite; [done|done|]. fold X C. nra. }
  destruct (float64_mul_near _ _ HT) as (_ & _ & [HTnear _]).
  fold X C in HTnear.
  set (T := float64_value (float64_mul _ _)) in *.
  apply float64_add_finite; [done|done|]. fold T B.
  assert (HmTB : (Qabs (T + B) <= Qabs (X * C) + Qabs (T - X * C) + Qabs B)%Q).
  { assert (Hf : (T + B == X * C + (T - X * C) + B)%Q) by ring.
    rewrite Hf at 1.
    eapply Qle_trans; [apply Qabs_triangle|].
    apply Qplus_le_compat; [apply Qabs_triangle|apply Qle_refl]. }
  pose proof (Qabs_nonneg (X * C)).
  nra.
Qed.

(** ** The rows of the projection in binary64 *)

Lemma binary64_zip_columns (model : binary64.LinearRegression) (first_date start : Z)
    (s : list nat) :
  let future_dates := (λ i, (start + Z.of_nat i)%Z) <$> s in
  let days := (λ d, (d - first_date)%Z) <$> future_dates in
  zip_with (λ '(d, n) p, binary64.mkForecast d n p) (zip future_dates days)
    (binary64.LinearRegression_predict model days)
  = projected_row model first_date start <$> s.
Proof.
  cbv zeta. unfold binary64.LinearRegression_predict.
  induction s as [|i s IH]; [done|].
  cbn. f_equal. exact IH.
Qed.

Lemma binary64_make_predictions_run (model : binary64.LinearRegression) (l : loc)
    (σ : heap) (rows : DataFrame) (n : nat) (last_date first_date : Z) :
  σ !! l = Some rows →
  latest last_date (date <$> rows) → earliest first_date (date <$> rows) →
  binary64.make_predictions model l n σ
  = (Returns (projected_row model first_date (last_date + 1) <$> seq 0 n), σ).
Proof.
  intros Hl Hlast%Series_max_latest Hfirst%Series_min_earliest.
  unfold binary64.make_predictions.
  rewrite bind_run, (load_run _ _ _ Hl), Hlast, Hfirst.
  unfold date_range. by rewrite binary64_zip_columns.
Qed.

Lemma projected_row_lookup (model : binary64.LinearRegression) (first_date start : Z)
    (n i : nat) (f : binary64.Forecast) :
  (projected_row model first_date start <$> seq 0 n) !! i = Some f →
  f = projected_row model first_date start i ∧ i < n.
Proof.
  rewrite list_lookup_fmap.
  destruct (seq 0 n !! i) as [j|] eqn:Hj; [|done].
  apply lookup_seq in Hj as [-> Hi]. by intros [= <-].
Qed.

(** The projection in exact arithmetic, for the model with the same two
    coefficients, has the same dates and day indices, and its amounts are
    the exact values of the line. *)
Lemma exact_projection_is_line_value (model : binary64.LinearRegression)
    (rows : DataFrame) (n : nat) (last_date first_date : Z) :
  latest last_date (date <$> rows) → earliest first_date (date <$> rows) →
  ∃ exact,
    projected
      (mkLinearRegression (float64_value (binary64.coef_ model))
         (float64_value (binary64.intercept_ model))) rows n
    = Returns exact
    ∧ Forall2 (λ e f, future_date e = binary64.future_date f
                      ∧ future_days_since_start e = binary64.future_days_since_start f
                      ∧ prediction e = line_value model (binary64.future_days_since_start f))
        exact (projected_row model first_date (last_date + 1) <$> seq 0 n).
Proof.
  intros Hlast Hfirst. eexists. split; [by apply projected_Returns|].
  apply Forall2_fmap, Forall_Forall2_diag, Forall_forall. by intros i _.
Qed.

Lemma line_value_step (model : binary64.LinearRegression) (x : Z) :
  (line_value model (x + 1) - line_value model x
   == float64_value (binary64.coef_ model))%Q.
Proof. unfold line_value. rewrite inject_Z_plus. ring. Qed.

(** * Properties of the forecaster *)

(** C1, evaluated where it fails.  The latest date of [ledger_C1] is day 3,
    so both sequences should start on day 4.  The forecaster returns an
    income sequence dated from day 2, the day after the latest income
    record, and an expenditure sequence dated from day 4: the two sequences
    do not share their dates. *)
Theorem income_anchor_is_latest_income_date `{RandomState} :
  latest 3 (date <$> ledger_C1)
  ∧ ∃ future_income future_expenditure,
      (predict_future_transactions 1%positive {[1%positive := ledger_C1]}).1
        = Returns (future_income, future_expenditure)
      ∧ future_date <$> future_income = date_range 2 30
      ∧ future_date <$> future_expenditure = date_range 4 30.
Proof.
  split; [by_Series_max|].
  rewrite (predict_future_transactions_result _ _ ledger_C1) by reflexivity.
  destruct (forecast_explicit ledger_C1)
    as (mi & me & last_i & first_i & last_e & first_e
        & _ & _ & Hli & _ & Hle & _ & ->).
  { split; vm_compute; lia. }
  assert (last_i = 1%Z) as -> by (apply (latest_unique _ _ _ Hli); by_Series_max).
  assert (last_e = 3%Z) as -> by (apply (latest_unique _ _ _ Hle); by_Series_max).
  eexists _, _. split; [reflexivity|].
  by rewrite !future_row_date.
Qed.

(** C2, evaluated where it fails.  The earliest date of [ledger_C2] is day
    0, and the income model is trained on the day indices 2 and 3 of the
    income records, counted from day 0.  The income line is nevertheless
    evaluated, for the projected dates 4, 5, ..., at the day indices 2, 3,
    ...: they are counted from day 2, the earliest income record. *)
Theorem income_projection_epoch_is_earliest_income_date `{RandomState} :
  earliest 0 (date <$> ledger_C2)
  ∧ days_since_start <$> income_of (prepared ledger_C2) = [Some 2%Z; Some 3%Z]
  ∧ ∃ future_income future_expenditure,
      (predict_future_transactions 1%positive {[1%positive := ledger_C2]}).1
        = Returns (future_income, future_expenditure)
      ∧ (λ f, (future_date f, future_days_since_start f)) <$> future_income
        = (λ i, (4 + Z.of_nat i, 2 + Z.of_nat i)%Z) <$> seq 0 30.
Proof.
  split; [by_Series_min|]. split; [reflexivity|].
  rewrite (predict_future_transactions_result _ _ ledger_C2) by reflexivity.
  destruct (forecast_explicit ledger_C2)
    as (mi & me & last_i & first_i & last_e & first_e
        & _ & _ & Hli & Hfi & _ & _ & ->).
  { split; vm_compute; lia. }
  assert (last_i = 3%Z) as -> by (apply (latest_unique _ _ _ Hli); by_Series_max).
  assert (first_i = 2%Z) as -> by (apply (earliest_unique _ _ _ Hfi); by_Series_min).
  eexists _, _. split; [reflexivity|].
  rewrite <- list_fmap_compose. apply list_fmap_ext. intros _ i _. cbn.
  f_equal; lia.
Qed.

(** C3 as stated fails on [ledger_C3], which has one income record and a
    valid expenditure subseries: whatever the generator, the forecaster
    raises [ValueError], not [InsufficientDataError], and since the call as
    a whole raises, no expenditure forecast is returned either. *)
Lemma single_income_record_counterexample :
  List.length (income_of ledger_C3) = 1
  ∧ 2 ≤ List.length (expenses_of ledger_C3)
  ∧ ∀ rs : RandomState,
      (@predict_future_transactions rs 1%positive {[1%positive := ledger_C3]}).1
        = Raises ValueError
      ∧ ¬ raises_InsufficientDataError
            (@predict_future_transactions rs 1%positive {[1%positive := ledger_C3]}).1.
Proof.
  split; [reflexivity|]. split; [vm_compute; lia|]. intros rs.
  rewrite (predict_future_transactions_result _ _ ledger_C3) by reflexivity.
  rewrite forecast_single_income by reflexivity.
  split; [reflexivity|]. intros (e & [= <-] & He). discriminate He.
Qed.

(** C3, amended.  For an input whose income subseries holds exactly one
    record, the forecaster raises the [ValueError] of the train/test split
    (one sample leaves no training row) while fitting the income model; the
    call returns no forecast, neither for income nor for expenditure. *)
Theorem single_income_record_raises_ValueError `{RandomState} (l : loc) (σ : heap)
    (df : DataFrame) :
  σ !! l = Some df → List.length (income_of df) = 1 →
  (predict_future_transactions l σ).1 = Raises ValueError.
Proof.
  intros Hl Hi. rewrite (predict_future_transactions_result l σ df Hl).
  by apply forecast_single_income.
Qed.

Lemma single_income_record_raises_ValueError_witness :
  (@predict_future_transactions in_order 1%positive {[1%positive := ledger_C3]}).1
  = Raises ValueError.
Proof.
  apply (@single_income_record_raises_ValueError in_order 1%positive
           {[1%positive := ledger_C3]} ledger_C3).
  - reflexivity.
  - reflexivity.
Defined.

(** C4, evaluated where it fails.  [ledger_C4] is read from the file without
    a [days_since_start] column.  After the forecaster has returned, the
    frame at the caller's reference is no longer the one the caller passed:
    it has gained the column, with the day indices 0, 1, 2, 3. *)
Theorem caller_frame_gains_days_since_start `{RandomState} :
  let σ : heap := {[1%positive := ledger_C4]} in
  days_since_start <$> ledger_C4 = [None; None; None; None]
  ∧ ∃ df', (predict_future_transactions 1%positive σ).2 !! 1%positive = Some df'
      ∧ days_since_start <$> df' = [Some 0%Z; Some 1%Z; Some 2%Z; Some 3%Z]
      ∧ σ !! 1%positive ≠ Some df'.
Proof.
  cbv zeta. split; [reflexivity|].
  exists (prepared ledger_C4). split.
  - by apply predict_future_transactions_heap.
  - split; [reflexivity|]. rewrite lookup_singleton_eq. discriminate.
Qed.

(** C5. On every accepted input (two or more income records and two or more
    expenditure records, which every valid input has), the forecaster returns
    two sequences of exactly 30 forecast points each, and in each of them
    the date of a point is the day after the date of the point before it. *)
Theorem forecast_thirty_consecutive_days `{RandomState} (l : loc) (σ : heap)
    (df : DataFrame) :
  σ !! l = Some df → accepted df →
  ∃ future_income future_expenditure,
    (predict_future_transactions l σ).1 = Returns (future_income, future_expenditure)
    ∧ List.length future_income = 30
    ∧ List.length future_expenditure = 30
    ∧ consecutive (future_date <$> future_income)
    ∧ consecutive (future_date <$> future_expenditure).
Proof.
  intros Hl Hacc. rewrite (predict_future_transactions_result l σ df Hl).
  destruct (forecast_explicit df Hacc)
    as (mi & me & last_i & first_i & last_e & first_e & _ & _ & _ & _ & _ & _ & ->).
  eexists _, _. split; [reflexivity|].
  rewrite !future_row_date, !length_fmap, !length_seq.
  repeat split; apply date_range_consecutive.
Qed.

Lemma forecast_thirty_consecutive_days_witness :
  ∃ future_income future_expenditure,
    (@predict_future_transactions in_order 1%positive {[1%positive := ledger_C5]}).1
      = Returns (future_income, future_expenditure)
    ∧ List.length future_income = 30
    ∧ List.length future_expenditure = 30
    ∧ consecutive (future_date <$> future_income)
    ∧ consecutive (future_date <$> future_expenditure).
Proof.
  apply (@forecast_thirty_consecutive_days in_order 1%positive
           {[1%positive := ledger_C5]} ledger_C5).
  - reflexivity.
  - split; vm_compute; lia.
Defined.

(** C6. Lines 32 to 34 build two frames from the rows of the frame they
    read.  Up to order, these rows split into the income frame, a list
    [negative] and a list [zero]: every row of the income frame has an
    amount above 0 and is a row of the input unchanged, every row of
    [negative] has an amount below 0, every row of [zero] has the amount 0
    and goes to neither frame, and the expenditure frame is [negative] with
    each amount replaced by its absolute value and nothing else changed. *)
Theorem income_expenditure_frames_partition (l : loc) (σ : heap) (rows : DataFrame) :
  σ !! l = Some rows →
  ∃ (income_df expenditure_df : loc) (σ' : heap)
    (income expenditure negative zero : DataFrame),
    income_expenditure_frames l σ = (Returns (income_df, expenditure_df), σ')
    ∧ σ' !! income_df = Some income
    ∧ σ' !! expenditure_df = Some expenditure
    ∧ rows ≡ₚ income ++ negative ++ zero
    ∧ Forall (λ r, (0 < Transaction_Amount r)%Q) income
    ∧ Forall (λ r, (Transaction_Amount r < 0)%Q) negative
    ∧ Forall (λ r, (Transaction_Amount r == 0)%Q) zero
    ∧ Forall2 (λ r0 r, date r = date r0 ∧ Category r = Category r0
                       ∧ days_since_start r = days_since_start r0
                       ∧ Transaction_Amount r = Qabs (Transaction_Amount r0))
        negative expenditure.
Proof.
  intros Hl.
  destruct (income_expenditure_frames_run l σ rows Hl)
    as (li & le & σ' & Hrun & _ & _ & Hi & He & _).
  exists li, le, σ', (income_of rows), (expenditure_of rows), (expenses_of rows),
    (filter (λ r, (Transaction_Amount r == 0)%Q) rows).
  split; [done|]. split; [done|]. split; [done|].
  split; [apply sign_partition|].
  split. { apply Forall_forall. by intros r [Hr _]%list_elem_of_filter. }
  split. { apply Forall_forall. by intros r [Hr _]%list_elem_of_filter. }
  split. { apply Forall_forall. by intros r [Hr _]%list_elem_of_filter. }
  rewrite expenditure_of_absolute. apply Forall2_fmap_r, Forall_Forall2_diag.
  by apply Forall_forall.
Qed.

Lemma income_expenditure_frames_partition_witness :
  ∃ (income_df expenditure_df : loc) (σ' : heap)
    (income expenditure negative zero : DataFrame),
    income_expenditure_frames 1%positive {[1%positive := ledger_C6]}
      = (Returns (income_df, expenditure_df), σ')
    ∧ σ' !! income_df = Some income
    ∧ σ' !! expenditure_df = Some expenditure
    ∧ ledger_C6 ≡ₚ income ++ negative ++ zero
    ∧ Forall (λ r, (0 < Transaction_Amount r)%Q) income
    ∧ Forall (λ r, (Transaction_Amount r < 0)%Q) negative
    ∧ Forall (λ r, (Transaction_Amount r == 0)%Q) zero
    ∧ Forall2 (λ r0 r, date r = date r0 ∧ Category r = Category r0
                       ∧ days_since_start r = days_since_start r0
                       ∧ Transaction_Amount r = Qabs (Transaction_Amount r0))
        negative expenditure.
Proof.
  apply (income_expenditure_frames_partition 1%positive {[1%positive := ledger_C6]}
           ledger_C6).
  reflexivity.
Defined.

(** The partitioning scenario itself: the records of days 0 and 2 are the
    income, the record of day 1 is the expenditure, with amount 30. *)
Lemma partitioning_scenario :
  income_of ledger_C6 = [record 0 50; record 2 70]
  ∧ expenditure_of ledger_C6 = [record 1 30].
Proof. split; reflexivity. Qed.

(** C7. Lines 30 to 34 of the forecaster, on a frame whose earliest date is
    [m].  The frame left at the caller's reference has the rows of the input,
    one for one and in their order, with the same date, category and amount,
    each carrying [days_since_start = date - m]: an integer count of days
    from the earliest date of the whole frame, computed before the frame is
    partitioned.  The income subseries is made of the rows of that frame with
    an amount above 0, in their order and unchanged; the expenditure
    subseries of its rows with an amount below 0, with the same day index and
    the amount replaced by its absolute value.  So every record of both
    subseries carries [date - m] too: they share the epoch [m].  When some
    expenditure record is dated strictly before every income record, every
    day index of the income subseries, and so the smallest, is above 0. *)
Theorem days_since_start_shared_epoch (l : loc) (σ : heap) (df : DataFrame) (m : Z) :
  σ !! l = Some df → earliest m (date <$> df) →
  ∃ (income_df expenditure_df : loc) (σ' : heap)
    (whole income expenditure : DataFrame),
    (prepare_data l ≫= income_expenditure_frames) σ
      = (Returns (income_df, expenditure_df), σ')
    ∧ σ' !! l = Some whole
    ∧ σ' !! income_df = Some income
    ∧ σ' !! expenditure_df = Some expenditure
    ∧ Forall2 (λ r0 r, date r = date r0 ∧ Category r = Category r0
                       ∧ Transaction_Amount r = Transaction_Amount r0
                       ∧ days_since_start r = Some (date r0 - m)%Z) df whole
    ∧ income = filter (λ r, (0 < Transaction_Amount r)%Q) whole
    ∧ Forall2 (λ r0 r, date r = date r0 ∧ Category r = Category r0
                       ∧ days_since_start r = days_since_start r0
                       ∧ Transaction_Amount r = Qabs (Transaction_Amount r0))
        (filter (λ r, (Transaction_Amount r < 0)%Q) whole) expenditure
    ∧ Forall (λ r, days_since_start r = Some (date r - m)%Z) whole
    ∧ Forall (λ r, days_since_start r = Some (date r - m)%Z) income
    ∧ Forall (λ r, days_since_start r = Some (date r - m)%Z) expenditure
    ∧ ((∃ e, e ∈ df ∧ (Transaction_Amount e < 0)%Q
             ∧ ∀ r, r ∈ df → (0 < Transaction_Amount r)%Q → (date e < date r)%Z) →
       Forall (λ r, ∃ d, days_since_start r = Some d ∧ (0 < d)%Z) income).
Proof.
  intros Hl Hm.
  assert (Hl1 : <[l := prepared df]> σ !! l = Some (prepared df))
    by apply lookup_insert_eq.
  destruct (income_expenditure_frames_run l _ _ Hl1)
    as (li & le & σ' & Hrun & Hli & Hle & Hi & He & Hframe).
  assert (Hli' : l ≠ li) by (intros ->; congruence).
  assert (Hle' : l ≠ le) by (intros ->; congruence).
  exists li, le, σ', (prepared df), (income_of (prepared df)),
    (expenditure_of (prepared df)).
  split. { by rewrite bind_run, (prepare_data_run _ _ _ Hl). }
  split. { by rewrite Hframe. }
  split; [done|]. split; [done|].
  split.
  { unfold prepared. apply Forall2_fmap_r, Forall_Forall2_diag, Forall_forall.
    intros r _. unfold stamp.
    rewrite (proj2 (Series_min_earliest _ _) Hm). by cbn. }
  split; [done|].
  split.
  { fold (expenses_of (prepared df)). rewrite expenditure_of_absolute.
    apply Forall2_fmap_r, Forall_Forall2_diag. by apply Forall_forall. }
  split. { apply Forall_forall. intros r Hr. by apply (prepared_days_since_start df). }
  split; [by apply income_of_prepared_days|].
  split; [by apply expenditure_of_prepared_days|].
  intros (e & He_in & He_neg & He_first).
  apply Forall_forall. intros r Hr.
  exists (date r - m)%Z. split.
  { exact (proj1 (Forall_forall _ _) (income_of_prepared_days df m Hm) r Hr). }
  rewrite income_of_prepared in Hr.
  apply list_elem_of_fmap in Hr as (r0 & -> & [Hpos Hr0]%list_elem_of_filter).
  cbn. specialize (He_first r0 Hr0 Hpos).
  destruct Hm as [_ Hmin].
  specialize (Hmin (date e) (list_elem_of_fmap_2 date df e He_in)). lia.
Qed.

Lemma days_since_start_shared_epoch_witness :
  ∃ (income_df expenditure_df : loc) (σ' : heap)
    (whole income expenditure : DataFrame),
    (prepare_data 1%positive ≫= income_expenditure_frames) {[1%positive := ledger_C7]}
      = (Returns (income_df, expenditure_df), σ')
    ∧ σ' !! 1%positive = Some whole
    ∧ σ' !! income_df = Some income
    ∧ σ' !! expenditure_df = Some expenditure
    ∧ Forall2 (λ r0 r, date r = date r0 ∧ Category r = Category r0
                       ∧ Transaction_Amount r = Transaction_Amount r0
                       ∧ days_since_start r = Some (date r0 - 10)%Z) ledger_C7 whole
    ∧ income = filter (λ r, (0 < Transaction_Amount r)%Q) whole
    ∧ Forall2 (λ r0 r, date r = date r0 ∧ Category r = Category r0
                       ∧ days_since_start r = days_since_start r0
                       ∧ Transaction_Amount r = Qabs (Transaction_Amount r0))
        (filter (λ r, (Transaction_Amount r < 0)%Q) whole) expenditure
    ∧ Forall (λ r, days_since_start r = Some (date r - 10)%Z) whole
    ∧ Forall (λ r, days_since_start r = Some (date r - 10)%Z) income
    ∧ Forall (λ r, days_since_start r = Some (date r - 10)%Z) expenditure
    ∧ ((∃ e, e ∈ ledger_C7 ∧ (Transaction_Amount e < 0)%Q
             ∧ ∀ r, r ∈ ledger_C7 → (0 < Transaction_Amount r)%Q → (date e < date r)%Z) →
       Forall (λ r, ∃ d, days_since_start r = Some d ∧ (0 < d)%Z) income).
Proof.
  apply (days_since_start_shared_epoch 1%positive {[1%positive := ledger_C7]}
           ledger_C7 10%Z).
  - reflexivity.
  - apply Series_min_earliest. vm_compute. reflexivity.
Defined.

(** The epoch-sharing scenario: the income subseries of [ledger_C7] starts at
    day index 2, not 0. *)
Lemma epoch_sharing_scenario :
  days_since_start <$> income_of (prepared ledger_C7) = [Some 2%Z; Some 5%Z]
  ∧ days_since_start <$> expenditure_of (prepared ledger_C7) = [Some 0%Z; Some 3%Z].
Proof. split; reflexivity. Qed.



(** C9. Two calls on frames with the same content return the same result,
    whatever else the two heaps hold and wherever the frames are stored: the
    split is seeded with the constant 42 and nothing else enters the
    computation.  A second call on the very frame the first call was given,
    as the first call left it, returns the same result again. *)
Theorem predict_future_transactions_deterministic `{RandomState}
    (l1 l2 : loc) (σ1 σ2 : heap) (df : DataFrame) :
  σ1 !! l1 = Some df → σ2 !! l2 = Some df →
  (predict_future_transactions l1 σ1).1 = (predict_future_transactions l2 σ2).1
  ∧ (predict_future_transactions l1 (predict_future_transactions l1 σ1).2).1
    = (predict_future_transactions l1 σ1).1.
Proof.
  intros Hl1 Hl2. split.
  - by rewrite (predict_future_transactions_result l1 σ1 df),
      (predict_future_transactions_result l2 σ2 df).
  - rewrite (predict_future_transactions_result l1 _ (prepared df))
      by by apply predict_future_transactions_heap.
    rewrite (predict_future_transactions_result l1 σ1 df) by done.
    unfold forecast. by rewrite prepared_idemp.
Qed.

Lemma predict_future_transactions_deterministic_witness :
  (@predict_future_transactions in_order 1%positive {[1%positive := ledger_C9]}).1
  = (@predict_future_transactions in_order 7%positive
       {[2%positive := other_C9; 7%positive := ledger_C9]}).1
  ∧ (@predict_future_transactions in_order 1%positive
       (@predict_future_transactions in_order 1%positive
          {[1%positive := ledger_C9]}).2).1
    = (@predict_future_transactions in_order 1%positive {[1%positive := ledger_C9]}).1.
Proof.
  apply (@predict_future_transactions_deterministic in_order 1%positive 7%positive
           {[1%positive := ledger_C9]}
           {[2%positive := other_C9; 7%positive := ledger_C9]} ledger_C9).
  - reflexivity.
  - reflexivity.
Defined.

(** C10. [make_predictions] on any fitted model and any frame with a row,
    as lines 39 and 40 call it: the sequence has 30 points, whose day
    indices go up by exactly one, and each predicted amount is the fitted
    line evaluated in binary64 at the day index of the point: the index
    converted to a double, times the slope, plus the intercept, each
    operation rounded.  Far from overflow the predicted amount is finite; a
    predicted amount that is finite is within the rounding allowance of the
    exact value of the line; and the difference between two consecutive
    predicted amounts is the slope up to the two allowances: an arithmetic
    progression up to rounding. *)
Theorem predictions_progress_by_the_slope_up_to_rounding
    (model : binary64.LinearRegression) (l : loc) (σ : heap) (rows : DataFrame)
    (first_date last_date : Z) :
  σ !! l = Some rows →
  earliest first_date (date <$> rows) → latest last_date (date <$> rows) →
  ∃ future : list binary64.Forecast,
    binary64.make_predictions model l 30 σ = (Returns future, σ)
    ∧ List.length future = 30
    ∧ (∀ i f, future !! i = Some f →
         binary64.future_date f = (last_date + 1 + Z.of_nat i)%Z
         ∧ binary64.future_days_since_start f
           = (last_date + 1 + Z.of_nat i - first_date)%Z
         ∧ binary64.prediction f
           = float64_add
               (float64_mul (float64_of_int (binary64.future_days_since_start f))
                  (binary64.coef_ model))
               (binary64.intercept_ model)
         ∧ (far_from_overflow model (binary64.future_days_since_start f) →
            float64_finite (binary64.prediction f))
         ∧ (float64_finite (binary64.prediction f) →
            (Qabs (float64_value (binary64.prediction f)
                   - line_value model (binary64.future_days_since_start f))
             <= rounding_allowance model (binary64.future_days_since_start f))%Q))
    ∧ (∀ i f g, future !! i = Some f → future !! S i = Some g →
         float64_finite (binary64.prediction f) →
         float64_finite (binary64.prediction g) →
         (Qabs (float64_value (binary64.prediction g)
                - float64_value (binary64.prediction f)
                - float64_value (binary64.coef_ model))
          <= rounding_allowance model (binary64.future_days_since_start f)
             + rounding_allowance model (binary64.future_days_since_start g))%Q).
Proof.
  intros Hl Hfirst Hlast.
  exists (projected_row model first_date (last_date + 1) <$> seq 0 30).
  split; [by apply (binary64_make_predictions_run _ _ _ rows)|].
  split; [by rewrite length_fmap, length_seq|].
  split.
  - intros i f [-> _]%projected_row_lookup. unfold projected_row.
    cbn [binary64.future_date binary64.future_days_since_start binary64.prediction].
    split; [done|]. split; [done|]. split; [done|].
    split; [|apply prediction_near].
    intros (Hc & Hb & Hx & Hsize). by apply prediction_finite.
  - intros i f g [-> _]%projected_row_lookup [-> _]%projected_row_lookup.
    unfold projected_row.
    cbn [binary64.future_date binary64.future_days_since_start binary64.prediction].
    intros Hf Hg.
    pose proof (prediction_near _ _ _ Hf) as Hnear_f.
    pose proof (prediction_near _ _ _ Hg) as Hnear_g.
    fold (line_value model (last_date + 1 + Z.of_nat i - first_date)) in Hnear_f.
    fold (line_value model (last_date + 1 + Z.of_nat (S i) - first_date)) in Hnear_g.
    fold (rounding_allowance model (last_date + 1 + Z.of_nat i - first_date))
      in Hnear_f |- *.
    fold (rounding_allowance model (last_date + 1 + Z.of_nat (S i) - first_date))
      in Hnear_g |- *.
    pose proof (line_value_step model (last_date + 1 + Z.of_nat i - first_date)) as Hstep.
    replace (last_date + 1 + Z.of_nat i - first_date + 1)%Z
      with (last_date + 1 + Z.of_nat (S i) - first_date)%Z in Hstep by lia.
    apply Qabs_Qle_condition in Hnear_f. apply Qabs_Qle_condition in Hnear_g.
    apply Qabs_Qle_condition. lra.
Qed.

Lemma predictions_progress_by_the_slope_up_to_rounding_witness :
  ∃ future : list binary64.Forecast,
    binary64.make_predictions model_C10 1%positive 30
      {[1%positive := income_of (prepared ledger_C10)]}
      = (Returns future, {[1%positive := income_of (prepared ledger_C10)]})
    ∧ List.length future = 30
    ∧ (∀ i f, future !! i = Some f →
         binary64.future_date f = (4 + 1 + Z.of_nat i)%Z
         ∧ binary64.future_days_since_start f = (4 + 1 + Z.of_nat i - 0)%Z
         ∧ binary64.prediction f
           = float64_add
               (float64_mul (float64_of_int (binary64.future_days_since_start f))
                  (binary64.coef_ model_C10))
               (binary64.intercept_ model_C10)
         ∧ (far_from_overflow model_C10 (binary64.future_days_since_start f) →
            float64_finite (binary64.prediction f))
         ∧ (float64_finite (binary64.prediction f) →
            (Qabs (float64_value (binary64.prediction f)
                   - line_value model_C10 (binary64.future_days_since_start f))
             <= rounding_allowance model_C10 (binary64.future_days_since_start f))%Q))
    ∧ (∀ i f g, future !! i = Some f → future !! S i = Some g →
         float64_finite (binary64.prediction f) →
         float64_finite (binary64.prediction g) →
         (Qabs (float64_value (binary64.prediction g)
                - float64_value (binary64.prediction f)
                - float64_value (binary64.coef_ model_C10))
          <= rounding_allowance model_C10 (binary64.future_days_since_start f)
             + rounding_allowance model_C10 (binary64.future_days_since_start g))%Q).
Proof.
  apply (predictions_progress_by_the_slope_up_to_rounding model_C10 1%positive
           {[1%positive := income_of (prepared ledger_C10)]}
           (income_of (prepared ledger_C10)) 0%Z 4%Z).
  - reflexivity.
  - apply Series_min_earliest. vm_compute. reflexivity.
  - apply Series_max_latest. vm_compute. reflexivity.
Defined.

(** The claim as it is worded fails in binary64.  With the slope
    4.999999999999998 and the intercept 110.0, the predicted amounts for the
    income rows of [ledger_C10] (day indices 5, 6, ...) start 135.0, 140.0,
    145.0, 150.0, 155.0, 160.0, 164.99999999999997.  The fifth, sixth and
    seventh of them are finite; the two differences between them are not
    the same number, and neither is the slope. *)
Lemma predictions_arithmetic_progression_counterexample :
  ∃ (future : list binary64.Forecast) (f4 f5 f6 : binary64.Forecast),
    binary64.make_predictions model_C10 1%positive 30
      {[1%positive := income_of (prepared ledger_C10)]}
      = (Returns future, {[1%positive := income_of (prepared ledger_C10)]})
    ∧ future !! 4 = Some f4 ∧ future !! 5 = Some f5 ∧ future !! 6 = Some f6
    ∧ binary64.prediction f4 = S754_finite false 5453577673768960 (-45)
    ∧ binary64.prediction f5 = S754_finite false 5629499534213120 (-45)
    ∧ binary64.prediction f6 = S754_finite false 5805421394657279 (-45)
    ∧ ¬ (float64_value (binary64.prediction f5) - float64_value (binary64.prediction f4)
         == float64_value (binary64.prediction f6)
            - float64_value (binary64.prediction f5))%Q
    ∧ ¬ (float64_value (binary64.prediction f5) - float64_value (binary64.prediction f4)
         == float64_value (binary64.coef_ model_C10))%Q
    ∧ ¬ (float64_value (binary64.prediction f6) - float64_value (binary64.prediction f5)
         == float64_value (binary64.coef_ model_C10))%Q.
Proof.
  eexists _, _, _, _. split.
  { apply (binary64_make_predictions_run model_C10 1%positive _
             (income_of (prepared ledger_C10)) 30 4%Z 0%Z).
    - reflexivity.
    - apply Series_max_latest. vm_compute. reflexivity.
    - apply Series_min_earliest. vm_compute. reflexivity. }
  split; [reflexivity|]. split; [reflexivity|]. split; [reflexivity|].
  split; [by vm_compute|]. split; [by vm_compute|]. split; [by vm_compute|].
  split; [|split]; vm_compute; discriminate.
Qed.

(** * Further properties *)

(** X1. What the two sequences are anchored on.  On an accepted input, the
    income sequence is dated from the day after the latest income record and
    its day indices are counted from the earliest income record; the
    expenditure sequence is dated and indexed likewise from the expenditure
    records. *)
Theorem forecast_follows_each_subseries `{RandomState} (l : loc) (σ : heap)
    (df : DataFrame) (last_i first_i last_e first_e : Z) :
  σ !! l = Some df → accepted df →
  latest last_i (date <$> income_of df) → earliest first_i (date <$> income_of df) →
  latest last_e (date <$> expenses_of df) → earliest first_e (date <$> expenses_of df) →
  ∃ future_income future_expenditure,
    (predict_future_transactions l σ).1 = Returns (future_income, future_expenditure)
    ∧ future_date <$> future_income = date_range (last_i + 1) 30
    ∧ future_date <$> future_expenditure = date_range (last_e + 1) 30
    ∧ Forall (λ f, future_days_since_start f = (future_date f - first_i)%Z) future_income
    ∧ Forall (λ f, future_days_since_start f = (future_date f - first_e)%Z)
        future_expenditure.
Proof.
  intros Hl Hacc Hli Hfi Hle Hfe.
  rewrite (predict_future_transactions_result l σ df Hl).
  destruct (forecast_explicit df Hacc)
    as (mi & me & last_i' & first_i' & last_e' & first_e'
        & _ & _ & Hli' & Hfi' & Hle' & Hfe' & ->).
  rewrite (latest_unique _ _ _ Hli' Hli), (latest_unique _ _ _ Hle' Hle).
  rewrite (earliest_unique _ _ _ Hfi' Hfi), (earliest_unique _ _ _ Hfe' Hfe).
  eexists _, _. split; [reflexivity|].
  rewrite !future_row_date. split; [done|]. split; [done|].
  split; apply Forall_fmap, Forall_forall; intros i _; reflexivity.
Qed.

Lemma forecast_follows_each_subseries_witness :
  ∃ future_income future_expenditure,
    (@predict_future_transactions in_order 1%positive {[1%positive := ledger_anchors]}).1
      = Returns (future_income, future_expenditure)
    ∧ future_date <$> future_income = date_range (1 + 1) 30
    ∧ future_date <$> future_expenditure = date_range (3 + 1) 30
    ∧ Forall (λ f, future_days_since_start f = (future_date f - 0)%Z) future_income
    ∧ Forall (λ f, future_days_since_start f = (future_date f - 2)%Z)
        future_expenditure.
Proof.
  apply (@forecast_follows_each_subseries in_order 1%positive
           {[1%positive := ledger_anchors]} ledger_anchors 1%Z 0%Z 3%Z 2%Z).
  - reflexivity.
  - split; vm_compute; lia.
  - apply Series_max_latest. vm_compute. reflexivity.
  - apply Series_min_earliest. vm_compute. reflexivity.
  - apply Series_max_latest. vm_compute. reflexivity.
  - apply Series_min_earliest. vm_compute. reflexivity.
Defined.

(** X2. What the call leaves in the heap.  The frame at the caller's reference
    keeps its rows with their dates, categories and amounts, and carries the
    day index of every row; every other object that existed is as it was. *)
Theorem forecast_heap_effect `{RandomState} (l : loc) (σ : heap) (df : DataFrame) :
  σ !! l = Some df →
  ∃ df', (predict_future_transactions l σ).2 !! l = Some df'
    ∧ date <$> df' = date <$> df
    ∧ Category <$> df' = Category <$> df
    ∧ Transaction_Amount <$> df' = Transaction_Amount <$> df
    ∧ (∀ m, earliest m (date <$> df) →
            Forall (λ r, days_since_start r = Some (date r - m)%Z) df')
    ∧ (∀ k, k ≠ l → is_Some (σ !! k) →
            (predict_future_transactions l σ).2 !! k = σ !! k).
Proof.
  intros Hl.
  destruct (predict_future_transactions_run l σ df Hl)
    as (li & le & σ' & -> & Hli & Hle & Hl' & _ & _ & Hframe).
  exists (prepared df). split; [done|].
  split; [apply prepared_date|]. split; [apply prepared_Category|].
  split; [apply prepared_Transaction_Amount|]. split.
  - intros m Hm. apply Forall_forall. intros r Hr.
    by apply (prepared_days_since_start df).
  - intros k Hk [v Hv]. cbn. apply Hframe; [done| |]; intros ->; congruence.
Qed.

Lemma forecast_heap_effect_witness :
  ∃ df', (@predict_future_transactions in_order 1%positive
            {[1%positive := ledger_unprepared]}).2 !! 1%positive = Some df'
    ∧ date <$> df' = date <$> ledger_unprepared
    ∧ Category <$> df' = Category <$> ledger_unprepared
    ∧ Transaction_Amount <$> df' = Transaction_Amount <$> ledger_unprepared
    ∧ (∀ m, earliest m (date <$> ledger_unprepared) →
            Forall (λ r, days_since_start r = Some (date r - m)%Z) df')
    ∧ (∀ k, k ≠ 1%positive → is_Some (({[1%positive := ledger_unprepared]} : heap) !! k) →
            (@predict_future_transactions in_order 1%positive
               {[1%positive := ledger_unprepared]}).2 !! k
            = ({[1%positive := ledger_unprepared]} : heap) !! k).
Proof.
  apply (@forecast_heap_effect in_order 1%positive {[1%positive := ledger_unprepared]}
           ledger_unprepared).
  reflexivity.
Defined.

(** X3. Fewer than two records in either subseries: the train/test split of
    that subseries leaves no training row, and the call raises its
    [ValueError]. *)
Theorem too_few_records_raises_ValueError `{RandomState} (l : loc) (σ : heap)
    (df : DataFrame) :
  σ !! l = Some df →
  List.length (income_of df) ≤ 1 ∨ List.length (expenses_of df) ≤ 1 →
  (predict_future_transactions l σ).1 = Raises ValueError.
Proof.
  intros Hl Hfew. rewrite (predict_future_transactions_result l σ df Hl).
  unfold forecast. cbv zeta.
  assert (Hdays : ∃ f,
             Forall (λ r, days_since_start r = Some (f r)) (income_of (prepared df))
             ∧ Forall (λ r, days_since_start r = Some (f r))
                 (expenditure_of (prepared df))).
  { destruct df as [|r0 df0] eqn:Hdf.
    - exists (λ _, 0%Z). split; constructor.
    - destruct (nonempty_earliest (r0 :: df0)) as [m Hm]; [done|].
      exists (λ r, (date r - m)%Z).
      split; [by apply income_of_prepared_days | by apply expenditure_of_prepared_days]. }
  destruct Hdays as (f & Hfi & Hfe).
  destruct (decide (List.length (income_of df) ≤ 1)) as [Hi|Hi].
  - rewrite (fitted_Raises _ f Hfi); [done|]. by rewrite income_of_prepared_length.
  - destruct Hfew as [Hi'|He]; [lia|].
    destruct (fitted_Returns _ f Hfi) as [mi ->].
    { rewrite income_of_prepared_length. lia. }
    rewrite outcome_bind_Returns.
    rewrite (fitted_Raises _ f Hfe); [done|]. by rewrite expenditure_of_prepared_length.
Qed.

Lemma too_few_records_raises_ValueError_witness :
  (@predict_future_transactions in_order 1%positive {[1%positive := ledger_income_only]}).1
  = Raises ValueError.
Proof.
  apply (@too_few_records_raises_ValueError in_order 1%positive
           {[1%positive := ledger_income_only]} ledger_income_only).
  - reflexivity.
  - right. vm_compute. lia.
Defined.

(** * The dashboard script *)

(** ** Filters *)



Section filters.
Context {period : Type} `{EqDecision period}.
Variable to_period_M : Z → period.
Variable Period : string → period.





End filters.


(** ** The frame behind the download button *)



Section download.
Context `{RandomState} {period : Type} `{EqDecision period}.
Variable to_period_M : Z → period.
Variable Period : string → period.


End download.


(** ** Category options *)

#[export] Instance string_le_total : Total string_le.
Proof. intros a b. apply String.leb_total. Qed.

Lemma unique_elem (l : list string) (x : string) : x ∈ unique l ↔ x ∈ l.
Proof.
  induction l as [|y l IH]; [done|].
  cbn [unique]. rewrite !elem_of_cons, list_elem_of_filter, IH.
  destruct (decide (x = y)); tauto.
Qed.

Lemma unique_NoDup (l : list string) : NoDup (unique l).
Proof.
  induction l as [|y l IH]; [constructor|].
  cbn [unique]. constructor.
  - rewrite list_elem_of_filter. tauto.
  - by apply NoDup_filter.
Qed.

(** X8. Line 25 on any frame: the category options are 'All' followed by the
    categories of the data, each exactly once, in ascending order. *)
Theorem category_options_sorted_distinct (rows : DataFrame) :
  ∃ categories,
    category_options rows = "All"%string :: categories
    ∧ Sorted string_le categories
    ∧ NoDup categories
    ∧ ∀ c, c ∈ categories ↔ ∃ r, r ∈ rows ∧ Category r = c.
Proof.
  exists (sorted (unique (Category <$> rows))). split; [reflexivity|].
  unfold sorted. split; [apply Sorted_merge_sort, _|].
  split.
  - rewrite merge_sort_Permutation. apply unique_NoDup.
  - intros c. rewrite merge_sort_Permutation, unique_elem, list_elem_of_fmap.
    split; intros (r & Hr1 & Hr2); exists r; done.
Qed.

(** * What the forecast depends on *)

(** ** Dates moved by a constant *)

Lemma foldr_min_shift (k x : Z) (xs : list Z) :
  foldr Z.min (x + k)%Z ((λ d, d + k)%Z <$> xs) = (foldr Z.min x xs + k)%Z.
Proof. induction xs as [|a xs IH]; [done|]. cbn. rewrite IH. lia. Qed.

Lemma foldr_max_shift (k x : Z) (xs : list Z) :
  foldr Z.max (x + k)%Z ((λ d, d + k)%Z <$> xs) = (foldr Z.max x xs + k)%Z.
Proof. induction xs as [|a xs IH]; [done|]. cbn. rewrite IH. lia. Qed.

Lemma Series_min_shift (k : Z) (s : list Z) :
  Series_min ((λ d, d + k)%Z <$> s) = (λ m, m + k)%Z <$> Series_min s.
Proof. destruct s as [|x xs]; [done|]. cbn. by rewrite foldr_min_shift. Qed.

Lemma Series_max_shift (k : Z) (s : list Z) :
  Series_max ((λ d, d + k)%Z <$> s) = (λ m, m + k)%Z <$> Series_max s.
Proof. destruct s as [|x xs]; [done|]. cbn. by rewrite foldr_max_shift. Qed.

Lemma same_data_dates (k : Z) (rows1 rows2 : DataFrame) :
  Forall2 (λ r1 r2, date r2 = (date r1 + k)%Z) rows1 rows2 →
  date <$> rows2 = (λ d, d + k)%Z <$> (date <$> rows1).
Proof.
  induction 1 as [|r1 r2 rows1 rows2 Hr _ IH]; [done|].
  cbn. by rewrite Hr, IH.
Qed.

Lemma shifted_prepared (k : Z) (df1 df2 : DataFrame) :
  shifted k df1 df2 → Forall2 (same_data k) (prepared df1) (prepared df2).
Proof.
  intros Hs. unfold prepared.
  assert (Hd : date <$> df2 = (λ d, d + k)%Z <$> (date <$> df1)).
  { apply same_data_dates. eapply Forall2_impl; [exact Hs|]. by intros ? ? [? _]. }
  rewrite Hd, Series_min_shift.
  apply Forall2_fmap. eapply Forall2_impl; [exact Hs|].
  intros r1 r2 [Hdate Hamount]. unfold same_data. cbn.
  split; [done|]. split; [done|].
  destruct (Series_min (date <$> df1)); cbn; [f_equal; lia | done].
Qed.

Lemma same_data_income_of (k : Z) (rows1 rows2 : DataFrame) :
  Forall2 (same_data k) rows1 rows2 →
  Forall2 (same_data k) (income_of rows1) (income_of rows2).
Proof.
  apply Forall2_filter. intros r1 r2 (_ & Ha & _). by rewrite Ha.
Qed.

Lemma same_data_expenditure_of (k : Z) (rows1 rows2 : DataFrame) :
  Forall2 (same_data k) rows1 rows2 →
  Forall2 (same_data k) (expenditure_of rows1) (expenditure_of rows2).
Proof.
  intros Hs. unfold expenditure_of, expenses_of. apply Forall2_fmap.
  eapply Forall2_impl.
  - eapply (Forall2_filter _ (λ r, (Transaction_Amount r < 0)%Q)
              (λ r, (Transaction_Amount r < 0)%Q)); [|exact Hs].
    intros r1 r2 (_ & Ha & _). by rewrite Ha.
  - intros r1 r2 (Hd & Ha & Hn). unfold same_data. cbn. by rewrite Ha.
Qed.

Lemma same_data_getitem (k : Z) (rows1 rows2 : DataFrame) (col : column) :
  Forall2 (same_data k) rows1 rows2 → getitem rows2 col = getitem rows1 col.
Proof.
  intros Hs. destruct col; cbn [getitem].
  - f_equal. induction Hs as [|r1 r2 rows1 rows2 (_ & Ha & _) _ IH]; [done|].
    cbn. by rewrite Ha, IH.
  - induction Hs as [|r1 r2 rows1 rows2 (_ & _ & Hn) _ IH]; [done|].
    cbn. by rewrite Hn, IH.
Qed.

Lemma shift_future_row (model : LinearRegression) (k first_date start : Z) (i : nat) :
  future_row model (first_date + k) (start + k) i
  = shift_forecast k (future_row model first_date start i).
Proof.
  unfold future_row, shift_forecast. cbn.
  replace (start + k + Z.of_nat i - (first_date + k))%Z
    with (start + Z.of_nat i - first_date)%Z by lia.
  f_equal. lia.
Qed.

Section moved.
Context `{RandomState}.

Lemma same_data_fitted (k : Z) (rows1 rows2 : DataFrame) (target : column) :
  Forall2 (same_data k) rows1 rows2 → fitted rows2 target = fitted rows1 target.
Proof.
  intros Hs. unfold fitted. by rewrite !(same_data_getitem k rows1 rows2).
Qed.

Lemma same_data_projected (k : Z) (model : LinearRegression) (rows1 rows2 : DataFrame)
    (n : nat) :
  Forall2 (same_data k) rows1 rows2 →
  projected model rows2 n
  = match projected model rows1 n with
    | Returns future => Returns (shift_forecast k <$> future)
    | Raises e => Raises e
    end.
Proof.
  intros Hs.
  assert (Hd : date <$> rows2 = (λ d, d + k)%Z <$> (date <$> rows1)).
  { apply same_data_dates. eapply Forall2_impl; [exact Hs|]. by intros ? ? [? _]. }
  unfold projected. rewrite Hd, Series_max_shift, Series_min_shift.
  destruct (Series_max (date <$> rows1)) as [last_date|]; [|done].
  destruct (Series_min (date <$> rows1)) as [first_date|]; [|done].
  cbn [fmap option_fmap option_map]. unfold date_range.
  rewrite !zip_columns. f_equal. rewrite <- list_fmap_compose.
  apply list_fmap_ext. intros _ i _. cbn [compose].
  replace (last_date + k + 1)%Z with (last_date + 1 + k)%Z by lia.
  apply shift_future_row.
Qed.

Lemma forecast_shifted (k : Z) (df1 df2 : DataFrame) :
  shifted k df1 df2 → forecast df2 = shift_result k (forecast df1).
Proof.
  intros Hs. pose proof (shifted_prepared k df1 df2 Hs) as Hp.
  pose proof (same_data_income_of k _ _ Hp) as Hi.
  pose proof (same_data_expenditure_of k _ _ Hp) as He.
  unfold forecast. cbv zeta.
  rewrite (same_data_fitted k _ _ _ Hi), (same_data_fitted k _ _ _ He).
  destruct (fitted (income_of (prepared df1)) Col_Transaction_Amount) as [mi|e]; [|done].
  destruct (fitted (expenditure_of (prepared df1)) Col_Transaction_Amount) as [me|e];
    [|done].
  rewrite !outcome_bind_Returns.
  rewrite (same_data_projected k mi _ _ 30 Hi), (same_data_projected k me _ _ 30 He).
  destruct (projected mi (income_of (prepared df1)) 30) as [fi|e]; [|done].
  rewrite !outcome_bind_Returns.
  by destruct (projected me (expenditure_of (prepared df1)) 30) as [fe|e].
Qed.

End moved.

Lemma shift_forecast_0 (f : Forecast) : shift_forecast 0 f = f.
Proof. destruct f as [d n p]. unfold shift_forecast. cbn. f_equal. lia. Qed.

Lemma fmap_shift_forecast_0 (future : list Forecast) :
  shift_forecast 0 <$> future = future.
Proof.
  induction future as [|f future IH]; [done|].
  by rewrite fmap_cons, shift_forecast_0, IH.
Qed.

Lemma shift_result_0 (o : outcome (list Forecast * list Forecast)) :
  shift_result 0 o = o.
Proof.
  destruct o as [[fi fe]|e]; [|done]. cbn.
  by rewrite !fmap_shift_forecast_0.
Qed.

(** X9. Moving a ledger in time moves its forecast with it.  If two frames
    hold, row by row, the same amounts and dates that differ by the same
    number [k] of days, then the forecaster raises on both or returns on
    both, and the forecast of the second is the forecast of the first with
    every date [k] days later and the same predicted amounts. *)
Theorem forecast_moves_with_the_dates `{RandomState} (k : Z) (l1 l2 : loc)
    (σ1 σ2 : heap) (df1 df2 : DataFrame) :
  σ1 !! l1 = Some df1 → σ2 !! l2 = Some df2 → shifted k df1 df2 →
  (predict_future_transactions l2 σ2).1
  = shift_result k (predict_future_transactions l1 σ1).1.
Proof.
  intros Hl1 Hl2 Hs.
  rewrite (predict_future_transactions_result l1 σ1 df1 Hl1),
    (predict_future_transactions_result l2 σ2 df2 Hl2).
  by apply forecast_shifted.
Qed.

Lemma forecast_moves_with_the_dates_witness :
  (@predict_future_transactions in_order 2%positive
     {[2%positive := ledger_moved_to]}).1
  = shift_result 365
      (@predict_future_transactions in_order 1%positive
         {[1%positive := ledger_moved_from]}).1.
Proof.
  apply (@forecast_moves_with_the_dates in_order 365%Z 1%positive 2%positive
           {[1%positive := ledger_moved_from]} {[2%positive := ledger_moved_to]}
           ledger_moved_from ledger_moved_to).
  - reflexivity.
  - reflexivity.
  - repeat constructor.
Defined.

(** X10. The forecast reads the dates and the amounts only.  Two frames
    with the same column of dates and the same column of amounts get the
    same result, whatever their categories and whatever [days_since_start]
    column either of them already had. *)
Theorem forecast_reads_dates_and_amounts_only `{RandomState} (l1 l2 : loc)
    (σ1 σ2 : heap) (df1 df2 : DataFrame) :
  σ1 !! l1 = Some df1 → σ2 !! l2 = Some df2 →
  date <$> df1 = date <$> df2 →
  Transaction_Amount <$> df1 = Transaction_Amount <$> df2 →
  (predict_future_transactions l1 σ1).1 = (predict_future_transactions l2 σ2).1.
Proof.
  intros Hl1 Hl2 Hd Ha.
  rewrite (predict_future_transactions_result l1 σ1 df1 Hl1),
    (predict_future_transactions_result l2 σ2 df2 Hl2).
  rewrite (forecast_shifted 0 df1 df2), shift_result_0; [done|].
  unfold shifted. clear Hl1 Hl2. revert df2 Hd Ha.
  induction df1 as [|r1 df1 IH]; intros [|r2 df2] Hd Ha; try discriminate.
  - constructor.
  - injection Hd as Hd1 Hd. injection Ha as Ha1 Ha.
    constructor; [|by apply IH]. split; [lia|done].
Qed.

Lemma forecast_reads_dates_and_amounts_only_witness :
  (@predict_future_transactions in_order 1%positive
     {[1%positive := ledger_moved_from]}).1
  = (@predict_future_transactions in_order 2%positive
       {[2%positive := ledger_relabelled]}).1.
Proof.
  apply (@forecast_reads_dates_and_amounts_only in_order 1%positive 2%positive
           {[1%positive := ledger_moved_from]} {[2%positive := ledger_relabelled]}
           ledger_moved_from ledger_relabelled).
  - reflexivity.
  - reflexivity.
  - reflexivity.
  - reflexivity.
Defined.

(** ** The rows the fit uses *)

Lemma _safe_indexing_length {A} (X : list A) (indices : list nat) (xs : list A) :
  _safe_indexing X indices = Returns xs → List.length xs = List.length indices.
Proof.
  intros Hxs. apply _safe_indexing_Returns in Hxs.
  symmetry. exact (Forall2_length _ _ _ Hxs).
Qed.

Section training_rows.
Context `{RandomState}.

(** The number of training rows of a split that returns. *)
Lemma train_test_split_training_length {A B} (X : list A) (y : list B) (seed : Z)
    (X_train X_test : list A) (y_train y_test : list B) :
  train_test_split X y 0.2%Q seed = Returns (X_train, X_test, y_train, y_test) →
  List.length X_train
  = List.length X - Z.to_nat (Qceiling (0.2 * inject_Z (Z.of_nat (List.length X))))
  ∧ X_train ≠ [].
Proof.
  unfold train_test_split. cbv zeta.
  destruct (decide _) as [|Hn]; [done|].
  destruct (_safe_indexing X (take _ (drop _ _))) eqn:Htr; [|done].
  destruct (_safe_indexing X (take _ (permutation _ _))); [|done].
  destruct (_safe_indexing y (take _ (drop _ _))); [|done].
  destruct (_safe_indexing y (take _ (permutation _ _))); [|done].
  intros Heq. injection Heq as -> -> -> ->.
  apply _safe_indexing_length in Htr.
  rewrite length_take, length_drop, permutation_length in Htr.
  split; [lia|]. intros ->. simpl in Htr. lia.
Qed.

(** [train_model] fits the training rows of the split of the frame: their
    day indices against their amounts. *)
Lemma fitted_training (rows : DataFrame) (f : Transaction → Z)
    (training test training' test' : DataFrame) :
  Forall (λ r, days_since_start r = Some (f r)) rows →
  train_test_split rows rows 0.2%Q 42%Z = Returns (training, test, training', test') →
  fitted rows Col_Transaction_Amount
  = LinearRegression_fit ((λ r, inject_Z (f r)) <$> training)
      (Transaction_Amount <$> training).
Proof.
  intros Hdays Hsplit.
  pose proof (train_test_split_same _ _ _ _ _ _ _ Hsplit) as ->.
  unfold fitted. cbn [getitem].
  rewrite (getitem_days_since_start_Returns rows f Hdays).
  rewrite !outcome_bind_Returns.
  rewrite (train_test_split_fmap (λ r, inject_Z (f r)) Transaction_Amount
             _ _ _ _ _ _ _ _ Hsplit).
  by rewrite outcome_bind_Returns.
Qed.

End training_rows.

Lemma day_index_days_since_start (rows : DataFrame) :
  Forall (λ r, is_Some (days_since_start r)) rows →
  Forall (λ r, days_since_start r = Some (day_index r)) rows.
Proof.
  intros Hrows. eapply Forall_impl; [exact Hrows|].
  intros r [d Hd]. unfold day_index. by rewrite Hd.
Qed.

(** X11. The rows held out by the split never reach the model.  Two
    prepared frames whose splits have training rows with the same day
    indices and the same amounts get the same result from [train_model],
    whatever their held-out rows are. *)
Theorem held_out_rows_are_inert `{RandomState} (l1 l2 : loc) (σ1 σ2 : heap)
    (rows1 rows2 training1 test1 training1' test1'
       training2 test2 training2' test2' : DataFrame) :
  σ1 !! l1 = Some rows1 → σ2 !! l2 = Some rows2 →
  Forall (λ r, is_Some (days_since_start r)) rows1 →
  Forall (λ r, is_Some (days_since_start r)) rows2 →
  train_test_split rows1 rows1 0.2%Q 42%Z
    = Returns (training1, test1, training1', test1') →
  train_test_split rows2 rows2 0.2%Q 42%Z
    = Returns (training2, test2, training2', test2') →
  days_since_start <$> training1 = days_since_start <$> training2 →
  Transaction_Amount <$> training1 = Transaction_Amount <$> training2 →
  (train_model l1 Col_Transaction_Amount σ1).1
  = (train_model l2 Col_Transaction_Amount σ2).1.
Proof.
  intros Hl1 Hl2 Hd1 Hd2 Hs1 Hs2 Hdays Ham.
  rewrite (train_model_run _ _ _ _ Hl1), (train_model_run _ _ _ _ Hl2). cbn [fst].
  rewrite (fitted_training rows1 day_index _ _ _ _
             (day_index_days_since_start _ Hd1) Hs1).
  rewrite (fitted_training rows2 day_index _ _ _ _
             (day_index_days_since_start _ Hd2) Hs2).
  rewrite Ham. f_equal.
  change (λ r, inject_Z (day_index r))
    with ((λ d, inject_Z (default 0%Z d)) ∘ days_since_start).
  by rewrite !list_fmap_compose, Hdays.
Qed.

Lemma held_out_rows_are_inert_witness :
  (@train_model in_order 1%positive Col_Transaction_Amount
     {[1%positive := prepared ledger_held_out_1]}).1
  = (@train_model in_order 2%positive Col_Transaction_Amount
       {[2%positive := prepared ledger_held_out_2]}).1.
Proof.
  apply (@held_out_rows_are_inert in_order 1%positive 2%positive
           {[1%positive := prepared ledger_held_out_1]}
           {[2%positive := prepared ledger_held_out_2]}
           (prepared ledger_held_out_1) (prepared ledger_held_out_2)
           (drop 1 (prepared ledger_held_out_1)) (take 1 (prepared ledger_held_out_1))
           (drop 1 (prepared ledger_held_out_1)) (take 1 (prepared ledger_held_out_1))
           (drop 1 (prepared ledger_held_out_2)) (take 1 (prepared ledger_held_out_2))
           (drop 1 (prepared ledger_held_out_2)) (take 1 (prepared ledger_held_out_2))).
  - reflexivity.
  - reflexivity.
  - repeat constructor; by eexists.
  - repeat constructor; by eexists.
  - reflexivity.
  - reflexivity.
  - reflexivity.
  - reflexivity.
Defined.

(** ** A feature without spread *)

Lemma np_sum_constant (c : Q) (X : list Q) :
  Forall (λ x, (x == c)%Q) X →
  (np_sum X == inject_Z (Z.of_nat (List.length X)) * c)%Q.
Proof.
  induction 1 as [|x X Hx _ IH]; [cbn; ring|].
  rewrite np_sum_cons, inject_Z_length_cons, Hx, IH. ring.
Qed.

Lemma np_mean_constant (c : Q) (X : list Q) :
  X ≠ [] → Forall (λ x, (x == c)%Q) X → (np_mean X == c)%Q.
Proof.
  intros Hne HX. unfold np_mean. rewrite (np_sum_constant c X HX).
  field. by apply inject_Z_length_nonzero.
Qed.

Lemma np_sum_squares_of_zeros (Xc : list Q) :
  Forall (λ u, (u == 0)%Q) Xc → (np_sum (zip_with Qmult Xc Xc) == 0)%Q.
Proof.
  induction 1 as [|u Xc Hu _ IH]; [reflexivity|].
  cbn [zip_with]. rewrite np_sum_cons, Hu, IH. ring.
Qed.

(** Day indices that are all the same give the line of slope 0 through the
    mean of the amounts. *)
Lemma LinearRegression_fit_flat (c : Q) (X y : list Q) :
  X ≠ [] → Forall (λ x, (x == c)%Q) X →
  ∃ model, LinearRegression_fit X y = Returns model
           ∧ (coef_ model == 0)%Q ∧ (intercept_ model == np_mean y)%Q.
Proof.
  intros Hne HX.
  pose proof (np_mean_constant c X Hne HX) as Hmean.
  assert (Hzero : (np_sum (zip_with Qmult ((λ x, x - np_mean X)%Q <$> X)
                             ((λ x, x - np_mean X)%Q <$> X)) == 0)%Q).
  { apply np_sum_squares_of_zeros. apply Forall_fmap.
    eapply Forall_impl; [exact HX|]. intros x Hx. cbn. rewrite Hx, Hmean. ring. }
  unfold LinearRegression_fit. destruct X as [|x0 X0] eqn:HeqX; [done|].
  rewrite <- HeqX in *. cbv zeta.
  apply Qeq_bool_iff in Hzero. rewrite Hzero.
  eexists. split; [reflexivity|]. cbn [coef_ intercept_].
  split; [reflexivity|]. ring.
Qed.

(** X12. When all training rows of a prepared frame fall on one day, the
    fit does not fail: [train_model] returns the flat line, of slope 0 and
    of intercept the mean of the training amounts, and every amount that
    [make_predictions] projects is that mean. *)
Theorem same_day_training_gives_flat_forecast `{RandomState} (l : loc) (σ : heap)
    (rows training test training' test' : DataFrame) (day : Z) :
  σ !! l = Some rows →
  Forall (λ r, is_Some (days_since_start r)) rows →
  train_test_split rows rows 0.2%Q 42%Z = Returns (training, test, training', test') →
  Forall (λ r, days_since_start r = Some day) training →
  ∃ (model : LinearRegression) (future : list Forecast),
    train_model l Col_Transaction_Amount σ = (Returns model, σ)
    ∧ (coef_ model == 0)%Q
    ∧ (intercept_ model == np_mean (Transaction_Amount <$> training))%Q
    ∧ make_predictions model l 30 σ = (Returns future, σ)
    ∧ List.length future = 30
    ∧ Forall (λ f, (prediction f == np_mean (Transaction_Amount <$> training))%Q)
        future.
Proof.
  intros Hl Hdays Hsplit Hsame.
  destruct (train_test_split_training_length _ _ _ _ _ _ _ Hsplit) as [_ Hne].
  destruct (LinearRegression_fit_flat (inject_Z day)
              ((λ r, inject_Z (day_index r)) <$> training)
              (Transaction_Amount <$> training))
    as (model & Hfit & Hcoef & Hint).
  { by destruct training. }
  { apply Forall_fmap. eapply Forall_impl; [exact Hsame|].
    intros r Hr. cbn. unfold day_index. rewrite Hr. reflexivity. }
  assert (Hrows : rows ≠ []).
  { intros ->. destruct training as [|r training0]; [done|].
    pose proof (train_test_split_elem _ _ _ _ _ _ _ _ r Hsplit) as Hr.
    apply elem_of_nil in Hr; [done|]. apply list_elem_of_here. }
  destruct (projected_total model rows 30 Hrows)
    as (last_date & first_date & _ & _ & Hproj).
  exists model, (future_row model first_date (last_date + 1) <$> seq 0 30).
  split.
  { rewrite (train_model_run _ _ _ _ Hl).
    by rewrite (fitted_training rows day_index _ _ _ _
                  (day_index_days_since_start _ Hdays) Hsplit), Hfit. }
  split; [done|]. split; [done|].
  split. { by rewrite (make_predictions_run _ _ _ _ _ Hl), Hproj. }
  split. { by rewrite length_fmap, length_seq. }
  apply Forall_fmap, Forall_forall. intros i _. cbn. rewrite Hcoef, Hint. ring.
Qed.

Lemma same_day_training_gives_flat_forecast_witness :
  ∃ (model : LinearRegression) (future : list Forecast),
    @train_model in_order 1%positive Col_Transaction_Amount
      {[1%positive := prepared ledger_same_day]}
      = (Returns model, {[1%positive := prepared ledger_same_day]})
    ∧ (coef_ model == 0)%Q
    ∧ (intercept_ model
       == np_mean (Transaction_Amount <$> drop 1 (prepared ledger_same_day)))%Q
    ∧ make_predictions model 1%positive 30 {[1%positive := prepared ledger_same_day]}
      = (Returns future, {[1%positive := prepared ledger_same_day]})
    ∧ List.length future = 30
    ∧ Forall (λ f, (prediction f
                    == np_mean (Transaction_Amount
                                  <$> drop 1 (prepared ledger_same_day)))%Q)
        future.
Proof.
  apply (@same_day_training_gives_flat_forecast in_order 1%positive
           {[1%positive := prepared ledger_same_day]}
           (prepared ledger_same_day)
           (drop 1 (prepared ledger_same_day)) (take 1 (prepared ledger_same_day))
           (drop 1 (prepared ledger_same_day)) (take 1 (prepared ledger_same_day))
           3%Z).
  - reflexivity.
  - repeat constructor; by eexists.
  - reflexivity.
  - repeat constructor.
Defined.

(** ** Two records *)

Lemma np_mean_singleton (a : Q) : (np_mean [a] == a)%Q.
Proof. unfold np_mean. cbn. field. Qed.

(** X13. The smallest subseries the forecaster accepts.  With exactly two
    income records the split keeps one of them for training, whatever their
    dates: the call returns, and the income forecast has 30 points and
    is flat, all 30 predicted amounts being the amount of one of the two
    income records. *)
Theorem two_income_records_give_flat_forecast `{RandomState} (l : loc) (σ : heap)
    (df : DataFrame) :
  σ !! l = Some df → accepted df → List.length (income_of df) = 2 →
  ∃ (future_income future_expenditure : list Forecast) (r : Transaction),
    (predict_future_transactions l σ).1 = Returns (future_income, future_expenditure)
    ∧ r ∈ income_of df
    ∧ List.length future_income = 30
    ∧ Forall (λ f, (prediction f == Transaction_Amount r)%Q) future_income.
Proof.
  intros Hl Hacc Htwo.
  rewrite (predict_future_transactions_result l σ df Hl).
  destruct (forecast_explicit df Hacc)
    as (mi & me & last_i & first_i & last_e & first_e
        & Hmi & _ & _ & _ & _ & _ & ->).
  assert (Hne : df ≠ []).
  { apply income_of_nonempty. intros Hnil. by rewrite Hnil in Htwo. }
  destruct (nonempty_earliest df Hne) as [m Hm].
  pose proof (income_of_prepared_days df m Hm) as Hdays.
  pose proof (income_of_prepared_length df) as Hlen. rewrite Htwo in Hlen.
  destruct (train_test_split_Returns (income_of (prepared df))
              (income_of (prepared df)) 42%Z)
    as (training & test & training' & test' & ind & Hsplit & _); [lia|done|].
  destruct (train_test_split_training_length _ _ _ _ _ _ _ Hsplit) as [Hone _].
  rewrite Hlen in Hone.
  change (2 - Z.to_nat (Qceiling (0.2 * inject_Z (Z.of_nat 2)))) with 1 in Hone.
  destruct training as [|r [|? ?]]; try discriminate Hone.
  rewrite (fitted_training _ _ _ _ _ _ Hdays Hsplit) in Hmi.
  destruct (LinearRegression_fit_flat (inject_Z (date r - m))
              [inject_Z (date r - m)] [Transaction_Amount r])
    as (model & Hfit & Hcoef & Hint); [done|by repeat constructor|].
  cbn [fmap list_fmap] in Hmi. rewrite Hfit in Hmi. injection Hmi as <-.
  rewrite np_mean_singleton in Hint.
  assert (Hr : r ∈ income_of (prepared df)).
  { apply (train_test_split_elem _ _ _ _ _ _ _ _ r Hsplit), list_elem_of_here. }
  rewrite income_of_prepared in Hr.
  apply list_elem_of_fmap in Hr as (r0 & -> & Hr0).
  eexists _, _, r0. split; [reflexivity|]. split; [done|].
  split. { by rewrite length_fmap, length_seq. }
  apply Forall_fmap, Forall_forall. intros i _. cbn. cbn in Hint.
  rewrite Hcoef, Hint. ring.
Qed.

Lemma two_income_records_give_flat_forecast_witness :
  ∃ (future_income future_expenditure : list Forecast) (r : Transaction),
    (@predict_future_transactions in_order 1%positive
       {[1%positive := ledger_two_incomes]}).1
      = Returns (future_income, future_expenditure)
    ∧ r ∈ income_of ledger_two_incomes
    ∧ List.length future_income = 30
    ∧ Forall (λ f, (prediction f == Transaction_Amount r)%Q) future_income.
Proof.
  apply (@two_income_records_give_flat_forecast in_order 1%positive
           {[1%positive := ledger_two_incomes]} ledger_two_incomes).
  - reflexivity.
  - split; vm_compute; lia.
  - reflexivity.
Defined.

(** ** A frame without its day column *)

(** X14. [train_model] needs [prepare_data] first.  On a frame that has rows
    but no [days_since_start] column it raises [KeyError], for either target
    column, and leaves the heap as it was. *)
Theorem train_model_without_prepare_data_raises_KeyError `{RandomState} (l : loc)
    (σ : heap) (rows : DataFrame) (target : column) :
  σ !! l = Some rows → rows ≠ [] →
  Forall (λ r, days_since_start r = None) rows →
  train_model l target σ = (Raises KeyError, σ).
Proof.
  intros Hl Hne Hnone. rewrite (train_model_run _ _ _ _ Hl). f_equal.
  unfold fitted. cbn [getitem].
  destruct rows as [|r rows]; [done|].
  apply Forall_cons in Hnone as [Hr _]. cbn. by rewrite Hr.
Qed.

Lemma train_model_without_prepare_data_raises_KeyError_witness :
  @train_model in_order 1%positive Col_Transaction_Amount
    {[1%positive := ledger_no_day_column]}
  = (Raises KeyError, {[1%positive := ledger_no_day_column]}).
Proof.
  apply (@train_model_without_prepare_data_raises_KeyError in_order 1%positive
           {[1%positive := ledger_no_day_column]} ledger_no_day_column
           Col_Transaction_Amount).
  - reflexivity.
  - discriminate.
  - repeat constructor.
Defined.

(** ** Daily sums *)



Section daily_sums.
Context {float : Type}.
Variable group_sum : list Q → float.


End daily_sums.


(** ** The day indices *)

(** X16. [prepare_data] on any frame returns the reference it was given.
    In the frame it leaves there every day index is at least 0, and a
    frame with rows has a row of index 0; a second call changes nothing
    more; no other object is touched. *)
Theorem prepare_data_day_indices (l : loc) (σ : heap) (df : DataFrame) :
  σ !! l = Some df →
  ∃ (σ' : heap) (df' : DataFrame),
    prepare_data l σ = (Returns l, σ')
    ∧ σ' !! l = Some df'
    ∧ Forall (λ r, ∃ d, days_since_start r = Some d ∧ (0 ≤ d)%Z) df'
    ∧ (df ≠ [] → ∃ r, r ∈ df' ∧ days_since_start r = Some 0%Z)
    ∧ prepare_data l σ' = (Returns l, σ')
    ∧ (∀ k, k ≠ l → σ' !! k = σ !! k).
Proof.
  intros Hl. exists (<[l := prepared df]> σ), (prepared df).
  split; [by apply prepare_data_run|].
  split; [apply lookup_insert_eq|].
  split.
  { destruct df as [|r0 df0] eqn:Hdf; [constructor|]. rewrite <- Hdf in *.
    destruct (nonempty_earliest df) as [m Hm]; [by rewrite Hdf|].
    apply Forall_forall. intros r Hr. exists (date r - m)%Z.
    split; [by apply (prepared_days_since_start df)|].
    destruct Hm as [_ Hmin].
    assert (Hdate : date r ∈ date <$> df).
    { rewrite <- prepared_date. by apply list_elem_of_fmap_2. }
    specialize (Hmin (date r) Hdate). lia. }
  split.
  { intros Hne. destruct (nonempty_earliest df Hne) as [m Hm].
    pose proof Hm as [Hin _]. rewrite <- prepared_date in Hin.
    apply list_elem_of_fmap in Hin as (r & Hr1 & Hr2).
    exists r. split; [done|].
    rewrite (prepared_days_since_start df m r Hm Hr2). f_equal. lia. }
  split.
  { rewrite (prepare_data_run l _ (prepared df)) by apply lookup_insert_eq.
    by rewrite prepared_idemp, insert_insert_eq. }
  intros k Hk. by rewrite lookup_insert_ne.
Qed.

Lemma prepare_data_day_indices_witness :
  ∃ (σ' : heap) (df' : DataFrame),
    prepare_data 1%positive {[1%positive := ledger_daily]} = (Returns 1%positive, σ')
    ∧ σ' !! 1%positive = Some df'
    ∧ Forall (λ r, ∃ d, days_since_start r = Some d ∧ (0 ≤ d)%Z) df'
    ∧ (ledger_daily ≠ [] → ∃ r, r ∈ df' ∧ days_since_start r = Some 0%Z)
    ∧ prepare_data 1%positive σ' = (Returns 1%positive, σ')
    ∧ (∀ k, k ≠ 1%positive → σ' !! k = ({[1%positive := ledger_daily]} : heap) !! k).
Proof.
  apply (prepare_data_day_indices 1%positive {[1%positive := ledger_daily]}
           ledger_daily).
  reflexivity.
Defined.
